(** * pywall: decoding of raw IPv4 datagrams ([packets.py])

    A shallow embedding of [packets.py] and the properties of its decoders.

    - Python integers are unbounded: they are [Z].
    - A buffer ([str] in Python 2, [bytes] in Python 3) is a [list byte].
    - An exception raised by [struct.unpack] or [socket.inet_ntoa] aborts the
      constructor that called it: constructors live in the [result] monad and
      build their record only when every statement has run.
    - The two module-level dictionaries are [gmap]s. *)

From Stdlib Require Import ZArith Lia List String Ascii DecimalString.
From Stdlib.Strings Require Import Byte.
From Stdlib.Numbers Require DecimalPos DecimalZ.
From stdpp Require Import base option list gmap strings.

Local Open Scope Z_scope.

(** ** Exceptions *)

(** The only statements of the module that can raise are [struct.unpack]
    ([struct.error], when the slice has not the size of the format) and
    [socket.inet_ntoa] ([socket.error], when the slice has not 4 bytes).
    Slicing never raises. *)
Inductive exn : Type :=
  | StructError
  | SocketError.

Inductive result (A : Type) : Type :=
  | Ok (a : A)
  | Raise (e : exn).

Arguments Ok {A} a.
Arguments Raise {A} e.

Definition bind {A B : Type} (r : result A) (k : A -> result B) : result B :=
  match r with
  | Ok a => k a
  | Raise e => Raise e
  end.

Notation "'let*' x ':=' r 'in' k" := (bind r (fun x => k))
  (at level 10, x pattern, r at level 100, k at level 200).

Definition is_ok {A : Type} (r : result A) : bool :=
  match r with Ok _ => true | Raise _ => false end.

(** ** Buffers *)

Definition byte_val (b : byte) : Z := Z.of_N (Byte.to_N b).

(** [buff[a:b]] for indices that are not negative (all of the module's are):
    both ends are clipped to the buffer, and the slice is empty when [b <= a]. *)
Definition slice (buff : list byte) (a b : Z) : list byte :=
  take (Z.to_nat (b - a)) (drop (Z.to_nat a) buff).

(** [buff[a:]] *)
Definition slice_from (buff : list byte) (a : Z) : list byte :=
  drop (Z.to_nat a) buff.

(** [len(buff)] *)
Definition len (buff : list byte) : Z := Z.of_nat (length buff).

(** Network byte order: the first byte is the most significant. *)
Definition be_uint (s : list byte) : Z :=
  fold_left (fun acc b => acc * 256 + byte_val b) s 0.

(** [unpack('!BBH', s)] *)
Definition unpack_BBH (s : list byte) : result (Z * Z * Z) :=
  match s with
  | [a; b; c; d] => Ok (byte_val a, byte_val b, be_uint [c; d])
  | _ => Raise StructError
  end.

(** [unpack('!HH', s)] *)
Definition unpack_HH (s : list byte) : result (Z * Z) :=
  match s with
  | [a; b; c; d] => Ok (be_uint [a; b], be_uint [c; d])
  | _ => Raise StructError
  end.

(** [unpack('!II', s)] *)
Definition unpack_II (s : list byte) : result (Z * Z) :=
  match s with
  | [a; b; c; d; e; f; g; h] => Ok (be_uint [a; b; c; d], be_uint [e; f; g; h])
  | _ => Raise StructError
  end.

(** [%d] of an integer. *)
Definition fmt_d (n : Z) : string := NilZero.string_of_int (Z.to_int n).

(** [socket.inet_ntoa(s)]: the dotted quad of a 4-byte address. *)
Definition inet_ntoa (s : list byte) : result string :=
  match s with
  | [a; b; c; d] =>
      Ok (fmt_d (byte_val a) +:+ "." +:+ fmt_d (byte_val b) +:+ "."
          +:+ fmt_d (byte_val c) +:+ "." +:+ fmt_d (byte_val d))%string
  | _ => Raise SocketError
  end.

(** The truth value Python gives an integer in a condition. *)
Definition truthy (n : Z) : bool := negb (n =? 0).

(** ** Lookup tables *)

(** A dictionary key of the module is an integer or a pair of integers; an
    integer is never equal to a pair. *)
Definition key : Type := Z + Z * Z.
Definition KInt (n : Z) : key := inl n.
Definition KPair (a b : Z) : key := inr (a, b).

Definition ICMP_TYPES_items : list (key * string) :=
    [ (KInt 0, "Echo Reply");
      (KInt 1, "Reserved");
      (KInt 2, "Reserved");
      (KInt 3, "Destination Unreachable");
      (KInt 4, "Source Quench");
      (KInt 5, "Redirect");
      (KInt 8, "Echo Request");
      (KInt 9, "Router Advertisement");
      (KInt 10, "Router Solicitation");
      (KInt 11, "Time Exceeded");
      (KInt 12, "Parameter Problem: Bad IP Header");
      (KInt 13, "Timestamp");
      (KInt 14, "Timestamp Reply");
      (KInt 15, "Information Request");
      (KInt 16, "Information Reply");
      (KInt 17, "Address Mask Request");
      (KInt 18, "Address Mask Reply");
      (KInt 30, "Traceroute") ]%string.

Definition ICMP_TYPES : gmap key string := list_to_map ICMP_TYPES_items.

Definition ICMP_CODES_items : list (key * string) :=
    [ (KPair 0 0, "Echo reply");
      (KPair 3 0, "Destination network unreachable");
      (KPair 3 1, "Destination host unreachable");
      (KPair 3 2, "Destination protocol unreachable");
      (KPair 3 3, "Destination port unreachable");
      (KPair 3 4, "Fragmentation required, and DF flag set");
      (KPair 3 5, "Source route failed");
      (KPair 3 6, "Destination network unknown");
      (KPair 3 7, "Destination host unknown");
      (KPair 3 8, "Source host isolated");
      (KPair 3 9, "Network administratively prohibited");
      (KPair 3 10, "Host administratively prohibited");
      (KPair 3 11, "Network unreachable for TOS");
      (KPair 3 12, "Host unreachable for TOS");
      (KPair 3 13, "Communication administratively prohibited");
      (KPair 3 14, "Host Precedence Violation");
      (KPair 3 15, "Precedence cutoff in effect");
      (KPair 5 0, "Redirect Datagram for the Network");
      (KPair 5 1, "Redirect Datagram for the Host");
      (KPair 5 2, "Redirect Datagram for the TOS & network");
      (KPair 5 3, "Redirect Datagram for the TOS & host");
      (KPair 11 0, "TTL expired in transit");
      (KPair 11 1, "Fragment reassembly time exceeded");
      (KPair 12 0, "Pointer indicates the error");
      (KPair 12 1, "Missing a required option");
      (KPair 12 2, "Bad length") ]%string.

Definition ICMP_CODES : gmap key string := list_to_map ICMP_CODES_items.

(** [d.get(k, default)] *)
Definition dict_get (d : gmap key string) (k : key) (default : string) : string :=
  match d !! k with
  | Some v => v
  | None => default
  end.

(** ** Transport decoders *)

Module TCPPacket.

Record t : Type := mk {
  _src_port : Z;
  _dst_port : Z;
  _seq_num : Z;
  _ack_num : Z;
  _win_size : Z;
  _data_offset : Z;
  flag_ns : Z;
  flag_cwr : Z;
  flag_ece : Z;
  flag_urg : Z;
  flag_ack : Z;
  flag_psh : Z;
  flag_rst : Z;
  flag_syn : Z;
  flag_fin : Z;
  _checksum : Z;
  _urg_ptr : Z;
  _options : list byte;
  _total_length : Z
}.

Definition _parse_header (buff : list byte) : result t :=
  let* (src_port, dst_port) := unpack_HH (slice buff 0 4) in
  let* (seq_num, ack_num) := unpack_II (slice buff 4 12) in
  let* (flags, win_size) := unpack_HH (slice buff 12 16) in
  let data_offset := Z.land flags 0xF000 in
  let* (checksum, urg_ptr) := unpack_HH (slice buff 16 20) in
  Ok {| _src_port := src_port;
        _dst_port := dst_port;
        _seq_num := seq_num;
        _ack_num := ack_num;
        _win_size := win_size;
        _data_offset := data_offset;
        flag_ns := Z.land flags 0x0100;
        flag_cwr := Z.land flags 0x0080;
        flag_ece := Z.land flags 0x0040;
        flag_urg := Z.land flags 0x0020;
        flag_ack := Z.land flags 0x0010;
        flag_psh := Z.land flags 0x0008;
        flag_rst := Z.land flags 0x0004;
        flag_syn := Z.land flags 0x0002;
        flag_fin := Z.land flags 0x0001;
        _checksum := checksum;
        _urg_ptr := urg_ptr;
        _options := slice buff 20 (data_offset * 4);
        _total_length := len buff |}.

Definition __init__ (buff : list byte) : result t := _parse_header buff.

Definition get_header_len (self : t) : Z := _data_offset self * 4.

Definition get_data_len (self : t) : Z := _total_length self - get_header_len self.

Definition get_src_port (self : t) : Z := _src_port self.

Definition get_dst_port (self : t) : Z := _dst_port self.

Definition __unicode__ (self : t) : string :=
  ("TCP from " +:+ fmt_d (_src_port self) +:+ " to " +:+ fmt_d (_dst_port self))%string.

End TCPPacket.

Module UDPPacket.

Record t : Type := mk {
  _src_port : Z;
  _dst_port : Z;
  _length : Z;
  _checksum : Z;
  _total_length : Z
}.

Definition _parse_header (buff : list byte) : result t :=
  let* (src_port, dst_port) := unpack_HH (slice buff 0 4) in
  let* (length, checksum) := unpack_HH (slice buff 4 8) in
  Ok {| _src_port := src_port;
        _dst_port := dst_port;
        _length := length;
        _checksum := checksum;
        _total_length := len buff |}.

Definition __init__ (buff : list byte) : result t := _parse_header buff.

Definition get_header_len (self : t) : Z := 8.

Definition get_data_len (self : t) : Z := _total_length self - get_header_len self.

Definition get_src_port (self : t) : Z := _src_port self.

Definition get_dst_port (self : t) : Z := _dst_port self.

Definition __unicode__ (self : t) : string :=
  ("UDP from " +:+ fmt_d (_src_port self) +:+ " to " +:+ fmt_d (_dst_port self))%string.

End UDPPacket.

Module ICMPPacket.

Record t : Type := mk {
  type : Z;
  code : Z;
  checksum : Z;
  rest : list byte
}.

Definition _parse_header (buf : list byte) : result t :=
  let* (type, code, checksum) := unpack_BBH (slice buf 0 4) in
  Ok {| type := type;
        code := code;
        checksum := checksum;
        rest := slice buf 4 8 |}.

Definition __init__ (buf : list byte) : result t := _parse_header buf.

Definition get_header_len (self : t) : Z := 4.

Definition get_data_len (self : t) : Z := 4.

(** The two names of the summary: the first [%s] and the second [%s]. The
    code table is read at the key [self.code], an integer. *)
Definition type_name (self : t) : string :=
  dict_get ICMP_TYPES (KInt (type self)) "Unknown".

Definition code_name (self : t) : string :=
  dict_get ICMP_CODES (KInt (code self)) "Unknown".

Definition __unicode__ (self : t) : string :=
  ("ICMP Type " +:+ fmt_d (type self) +:+ " (" +:+ type_name self
   +:+ ") Code " +:+ fmt_d (code self) +:+ " (" +:+ code_name self +:+ ")")%string.

End ICMPPacket.

(** ** Payload dispatcher *)

(** The object an [IPPacket] holds as its payload, when it is not [None]. *)
Inductive payload : Type :=
  | TCP (p : TCPPacket.t)
  | UDP (p : UDPPacket.t)
  | ICMP (p : ICMPPacket.t).

(** The protocol numbers of the [socket] module. *)
Definition IPPROTO_ICMP : Z := 1.
Definition IPPROTO_TCP : Z := 6.
Definition IPPROTO_UDP : Z := 17.

Definition payload_builder (payload_buff : list byte) (protocol : Z)
  : result (option payload) :=
  if protocol =? IPPROTO_TCP then
    let* p := TCPPacket.__init__ payload_buff in Ok (Some (TCP p))
  else if protocol =? IPPROTO_UDP then
    let* p := UDPPacket.__init__ payload_buff in Ok (Some (UDP p))
  else if protocol =? IPPROTO_ICMP then
    let* p := ICMPPacket.__init__ payload_buff in Ok (Some (ICMP p))
  else
    Ok None.

(** ** IP decoder *)

Module IPPacket.

(** The attributes [_parse_header] sets. *)
Record header : Type := mk_header {
  _total_length : Z;
  _version : Z;
  _ihl : Z;
  _dscp : Z;
  _ecn : Z;
  _id : Z;
  _flags : Z;
  _frag_offset : Z;
  _ttl : Z;
  _protocol : Z;
  _checksum : Z;
  _src_ip : string;
  _dst_ip : string;
  _options : list byte
}.

(** The object once [__init__] has returned. *)
Record t : Type := mk {
  _header : header;
  _payload : option payload
}.

Definition _parse_header (buff : list byte) : result header :=
  let* (v_ihl, dscp_ecn, total_length) := unpack_BBH (slice buff 0 4) in
  let version := Z.land (Z.shiftr v_ihl 4) 0xF in
  let ihl := Z.land v_ihl 0xF in
  let dscp := Z.land (Z.shiftr dscp_ecn 3) 0x1F in
  let ecn := Z.land dscp_ecn 0x7 in
  let* (id, flag_frag) := unpack_HH (slice buff 4 8) in
  let flags := Z.land (Z.shiftr flag_frag 13) 0x7 in
  let frag_offset := Z.land flag_frag 0x1FFF in
  let* (ttl, protocol, checksum) := unpack_BBH (slice buff 8 12) in
  let* src_ip := inet_ntoa (slice buff 12 16) in
  let* dst_ip := inet_ntoa (slice buff 16 20) in
  let options := slice buff 20 (ihl * 4) in
  Ok {| _total_length := total_length;
        _version := version;
        _ihl := ihl;
        _dscp := dscp;
        _ecn := ecn;
        _id := id;
        _flags := flags;
        _frag_offset := frag_offset;
        _ttl := ttl;
        _protocol := protocol;
        _checksum := checksum;
        _src_ip := src_ip;
        _dst_ip := dst_ip;
        _options := options |}.

Definition get_header_len (self : header) : Z := _ihl self * 4.

Definition get_data_len (self : header) : Z := _total_length self - _ihl self * 4.

Definition get_protocol (self : header) : Z := _protocol self.

Definition __init__ (buff : list byte) : result t :=
  let* self := _parse_header buff in
  let* payload :=
    payload_builder (slice_from buff (get_header_len self)) (_protocol self) in
  Ok {| _header := self; _payload := payload |}.

Definition get_payload (self : t) : option payload := _payload self.

End IPPacket.

(** The methods that read the header apply to the finished object too. *)
Coercion IPPacket._header : IPPacket.t >-> IPPacket.header.

(** ** Flow key extractor *)

(** [type(payload) is TCPPacket]: the payload as a TCP packet when the test
    holds. *)
Definition as_TCPPacket (payload : option payload) : option TCPPacket.t :=
  match payload with
  | Some (TCP p) => Some p
  | Some (UDP _) | Some (ICMP _) | None => None
  end.

(** The first branch returns its tuple at once; the second and the third
    assign [tup], which the last line of the function returns. *)
Definition to_tuple (ippacket : IPPacket.t) (flip : bool)
  : option (string * Z * string * Z) :=
  let payload := IPPacket.get_payload ippacket in
  match as_TCPPacket payload, flip with
  | Some payload, false =>
      let tup := (IPPacket._src_ip ippacket, TCPPacket._src_port payload,
                  IPPacket._dst_ip ippacket, TCPPacket._dst_port payload) in
      Some tup
  | Some payload, true =>
      let tup := (IPPacket._dst_ip ippacket, TCPPacket._dst_port payload,
                  IPPacket._src_ip ippacket, TCPPacket._src_port payload) in
      Some tup
  | None, _ =>
      let tup := None in
      tup
  end.

(** ** Vocabulary of the statements *)

(** Byte [i] of a buffer, as an integer (0 past the end). *)
Definition byte_at (buff : list byte) (i : nat) : Z :=
  byte_val (nth i buff x00).

(** The 16-bit field held in bytes [i] and [i+1], in network byte order. *)
Definition field16 (buff : list byte) (i : nat) : Z :=
  byte_at buff i * 256 + byte_at buff (S i).

(** The flow key with its two endpoints exchanged. *)
Definition swap_endpoints (k : string * Z * string * Z) : string * Z * string * Z :=
  match k with
  | (a, pa, b, pb) => (b, pb, a, pa)
  end.

(** A string without a space. *)
Fixpoint no_space (s : string) : Prop :=
  match s with
  | EmptyString => True
  | String c s' => c <> " "%char /\ no_space s'
  end.

(** ** Sample datagrams *)

(** A TCP segment without options nor data, from port 54321 to port 80,
    whose flags/offset field is [0x5018]. *)
Definition tcp_segment : list byte :=
  [xd4; x31; x00; x50;  x00; x00; x00; x00;  x00; x00; x00; x00;
   x50; x18; x20; x00;  x00; x00; x00; x00].

(** A 20-byte IPv4 header from 10.0.0.1 to 10.0.0.2 with first byte [b0],
    second byte [b1] and protocol [proto]. *)
Definition ip_header (b0 b1 proto : byte) : list byte :=
  [b0; b1; x00; x28;  x00; x01; x00; x00;  x40; proto; x00; x00;
   x0a; x00; x00; x01;  x0a; x00; x00; x02].

(** The datagram of the flow-key scenario: the segment above in an IP header
    with IHL 5. *)
Definition tcp_datagram : list byte := ip_header x45 x00 x06 ++ tcp_segment.

(** An IP header that announces a TCP payload, and nothing after it. *)
Definition bare_tcp_header : list byte := ip_header x45 x00 x06.

(** An IP header whose IHL nibble is 0, for a protocol without decoder. *)
Definition ihl0_datagram : list byte := ip_header x40 x00 x00.

(** An IP header whose second byte is [0x04]: only bit 2 is set. *)
Definition tos4_datagram : list byte := ip_header x45 x04 x00.

(** The first four bytes of an echo reply. *)
Definition icmp_4_bytes : list byte := [x00; x00; x00; x00].

(** An echo reply: type 0, code 0. *)
Definition icmp_echo_reply : list byte := [x00; x00; x00; x00; x00; x01; x00; x01].

(** * Properties *)

(** ** Tactics *)

(** Takes the next byte off [buff]; the goal for the buffer that ends here is
    closed by [tac]. *)
Ltac next_byte buff tac :=
  destruct buff as [|? buff]; [ tac | ].

Ltac too_short := exfalso; unfold len in *; simpl length in *; lia.

Ltac raises := first [ reflexivity | eexists; reflexivity ].

(** ** Bytes and bit fields *)

Lemma byte_val_range (b : byte) : 0 <= byte_val b < 256.
Proof.
  unfold byte_val. pose proof (Byte.to_N_bounded b) as Hb. lia.
Qed.

Lemma field16_range (buff : list byte) (i : nat) : 0 <= field16 buff i < 65536.
Proof.
  unfold field16, byte_at.
  pose proof (byte_val_range (nth i buff x00)).
  pose proof (byte_val_range (nth (S i) buff x00)).
  lia.
Qed.

Lemma testbit_above (a n : Z) : 0 <= a < 2 ^ n -> 0 <= n -> Z.testbit a n = false.
Proof.
  intros [Ha0 Ha] Hn.
  destruct (Z.eq_dec a 0) as [-> | Hne].
  - apply Z.testbit_0_l.
  - apply Z.bits_above_log2; [lia|].
    apply Z.log2_lt_pow2; lia.
Qed.

(** Masking with [0xF000] keeps the top nibble of a 16-bit field where it is:
    the result is the nibble times 4096. *)
Lemma land_F000 (a : Z) :
  0 <= a < 65536 -> Z.land a 0xF000 = Z.shiftr a 12 * 4096.
Proof.
  intros Ha.
  change 4096 with (2 ^ 12). rewrite <- Z.shiftl_mul_pow2 by lia.
  apply Z.bits_inj'. intros n Hn.
  rewrite Z.land_spec.
  destruct (Z.lt_ge_cases n 12) as [Hlo|Hhi].
  - rewrite Z.shiftl_spec_low by lia.
    change 0xF000 with (Z.shiftl 15 12).
    rewrite Z.shiftl_spec_low by lia. apply andb_false_r.
  - rewrite Z.shiftl_spec by lia. rewrite Z.shiftr_spec by lia.
    replace (n - 12 + 12) with n by lia.
    destruct (Z.lt_ge_cases n 16) as [Hlt|Hge].
    + assert (Hc : n = 12 \/ n = 13 \/ n = 14 \/ n = 15) by lia.
      destruct Hc as [-> | [-> | [-> | ->]]]; apply andb_true_r.
    + rewrite (testbit_above a n); [reflexivity| |lia].
      split; [lia|].
      apply Z.lt_le_trans with (2 ^ 16); [lia|].
      apply Z.pow_le_mono_r; lia.
Qed.

Lemma land_low_bits (a k : Z) : 0 <= k -> Z.land a (Z.ones k) = a mod 2 ^ k.
Proof. intros Hk. apply Z.land_ones. exact Hk. Qed.

Lemma land_0xF (a : Z) : Z.land a 0xF = a mod 16.
Proof. exact (land_low_bits a 4 ltac:(lia)). Qed.

Lemma land_0x7 (a : Z) : Z.land a 0x7 = a mod 8.
Proof. exact (land_low_bits a 3 ltac:(lia)). Qed.

Lemma land_0x1F (a : Z) : Z.land a 0x1F = a mod 32.
Proof. exact (land_low_bits a 5 ltac:(lia)). Qed.

Lemma shiftr_3 (a : Z) : Z.shiftr a 3 = a / 8.
Proof. rewrite Z.shiftr_div_pow2 by lia. reflexivity. Qed.

Lemma truthy_iff (n : Z) : truthy n = true <-> n <> 0.
Proof.
  unfold truthy. destruct (Z.eqb_spec n 0); simpl; split; intros; congruence.
Qed.

(** ** Decoding a buffer, byte by byte *)

Lemma TCPPacket_short (buff : list byte) :
  len buff < 20 -> TCPPacket.__init__ buff = Raise StructError.
Proof.
  intros H. do 20 (next_byte buff raises). too_short.
Qed.

Lemma UDPPacket_short (buff : list byte) :
  len buff < 8 -> UDPPacket.__init__ buff = Raise StructError.
Proof.
  intros H. do 8 (next_byte buff raises). too_short.
Qed.

Lemma ICMPPacket_short (buff : list byte) :
  len buff < 4 -> ICMPPacket.__init__ buff = Raise StructError.
Proof.
  intros H. do 4 (next_byte buff raises). too_short.
Qed.

(** Below 12 bytes one of the three [unpack] raises; from 12 to 19 bytes
    one of the two [inet_ntoa] does. *)
Lemma IPPacket_header_short (buff : list byte) :
  len buff < 20 ->
  IPPacket._parse_header buff
  = Raise (if len buff <? 12 then StructError else SocketError).
Proof.
  intros H. do 20 (next_byte buff raises). too_short.
Qed.

Lemma IPPacket_short (buff : list byte) :
  len buff < 20 ->
  IPPacket.__init__ buff
  = Raise (if len buff <? 12 then StructError else SocketError).
Proof.
  intros H. unfold IPPacket.__init__.
  rewrite IPPacket_header_short by exact H. reflexivity.
Qed.

Lemma be_uint_2 (a b : byte) : be_uint [a; b] = byte_val a * 256 + byte_val b.
Proof. unfold be_uint. simpl fold_left. lia. Qed.

Ltac long_enough buff :=
  do 20 (next_byte buff too_short);
  eexists; split; [ reflexivity | ];
  unfold field16, byte_at; cbn [nth]; rewrite <- ?be_uint_2.

(** A slice of at least 20 bytes always decodes as a TCP segment; every
    field comes from the first 20 bytes, and the length from the slice. *)
Lemma TCPPacket_long (buff : list byte) :
  20 <= len buff ->
  exists t, TCPPacket.__init__ buff = Ok t
    /\ TCPPacket._src_port t = field16 buff 0
    /\ TCPPacket._dst_port t = field16 buff 2
    /\ TCPPacket._data_offset t = Z.land (field16 buff 12) 0xF000
    /\ TCPPacket._total_length t = len buff
    /\ TCPPacket.flag_ns t = Z.land (field16 buff 12) 0x0100
    /\ TCPPacket.flag_cwr t = Z.land (field16 buff 12) 0x0080
    /\ TCPPacket.flag_ece t = Z.land (field16 buff 12) 0x0040
    /\ TCPPacket.flag_urg t = Z.land (field16 buff 12) 0x0020
    /\ TCPPacket.flag_ack t = Z.land (field16 buff 12) 0x0010
    /\ TCPPacket.flag_psh t = Z.land (field16 buff 12) 0x0008
    /\ TCPPacket.flag_rst t = Z.land (field16 buff 12) 0x0004
    /\ TCPPacket.flag_syn t = Z.land (field16 buff 12) 0x0002
    /\ TCPPacket.flag_fin t = Z.land (field16 buff 12) 0x0001.
Proof.
  intros H. long_enough buff. repeat split; reflexivity.
Qed.

Lemma UDPPacket_long (buff : list byte) :
  8 <= len buff ->
  exists u, UDPPacket.__init__ buff = Ok u
    /\ UDPPacket._src_port u = field16 buff 0
    /\ UDPPacket._dst_port u = field16 buff 2
    /\ UDPPacket._total_length u = len buff.
Proof.
  intros H. do 8 (next_byte buff too_short).
  eexists; split; [ reflexivity | ].
  unfold field16, byte_at; cbn [nth]; rewrite <- ?be_uint_2.
  repeat split; reflexivity.
Qed.

(** Four bytes are enough for an ICMP packet: [rest] is a slice, and a slice
    past the end of the buffer is short or empty, not an error. *)
Lemma ICMPPacket_long (buf : list byte) :
  4 <= len buf ->
  exists i, ICMPPacket.__init__ buf = Ok i
    /\ ICMPPacket.type i = byte_at buf 0
    /\ ICMPPacket.code i = byte_at buf 1
    /\ ICMPPacket.rest i = slice buf 4 8.
Proof.
  intros H. do 4 (next_byte buf too_short).
  eexists; split; [ reflexivity | ].
  unfold byte_at; cbn [nth]. repeat split; reflexivity.
Qed.

(** The fixed header of a buffer of at least 20 bytes always parses. *)
Lemma IPPacket_header_long (buff : list byte) :
  20 <= len buff ->
  exists h, IPPacket._parse_header buff = Ok h
    /\ IPPacket._ihl h = Z.land (byte_at buff 0) 0xF
    /\ IPPacket._dscp h = Z.land (Z.shiftr (byte_at buff 1) 3) 0x1F
    /\ IPPacket._ecn h = Z.land (byte_at buff 1) 0x7
    /\ IPPacket._protocol h = byte_at buff 9.
Proof.
  intros H. long_enough buff. repeat split; reflexivity.
Qed.

(** What [__init__] does once the fixed header has parsed: it hands the
    bytes after the header to the dispatcher, and whatever the dispatcher
    raises leaves [__init__] too. *)
Lemma IPPacket_init_unfold (buff : list byte) (h : IPPacket.header) :
  IPPacket._parse_header buff = Ok h ->
  IPPacket.__init__ buff
  = let* payload :=
      payload_builder (slice_from buff (IPPacket.get_header_len h))
                      (IPPacket._protocol h) in
    Ok (IPPacket.mk h payload).
Proof.
  intros Hh. unfold IPPacket.__init__. rewrite Hh. reflexivity.
Qed.

Lemma IPPacket_init_header (buff : list byte) (h : IPPacket.header) (p : IPPacket.t) :
  IPPacket._parse_header buff = Ok h ->
  IPPacket.__init__ buff = Ok p ->
  IPPacket._header p = h.
Proof.
  intros Hh Hp. rewrite (IPPacket_init_unfold buff h Hh) in Hp.
  destruct (payload_builder _ _) as [payload|e]; simpl in Hp; [|discriminate].
  injection Hp as <-. reflexivity.
Qed.

(** ** TCP lengths (C1) *)

(** For every slice of at least 20 bytes, [_data_offset] is the top nibble
    of the flags/offset field times 4096: the mask [0xF000] is applied and
    the nibble is never shifted down. The two lengths follow it. *)
Lemma TCPPacket_lengths (buff : list byte) :
  20 <= len buff ->
  exists t, TCPPacket.__init__ buff = Ok t
    /\ TCPPacket._data_offset t = Z.shiftr (field16 buff 12) 12 * 4096
    /\ TCPPacket.get_header_len t = Z.shiftr (field16 buff 12) 12 * 16384
    /\ TCPPacket.get_data_len t = len buff - Z.shiftr (field16 buff 12) 12 * 16384.
Proof.
  intros H.
  destruct (TCPPacket_long buff H) as (t & Ht & _ & _ & Hoff & Hlen & _).
  exists t. split; [exact Ht|].
  rewrite land_F000 in Hoff by apply field16_range.
  unfold TCPPacket.get_data_len, TCPPacket.get_header_len.
  rewrite Hoff, Hlen. repeat split; lia.
Qed.

(** C1. On the 20-byte segment whose flags/offset field is [0x5018] the top
    nibble is 5, and the decoded packet has a data offset of 20480, a header
    length of 81920 and a data length of -81900, where the nibble, 20 and 0
    are expected. *)
Theorem C1_tcp_data_offset_not_shifted :
  len tcp_segment = 20
  /\ field16 tcp_segment 12 = 0x5018
  /\ Z.shiftr (field16 tcp_segment 12) 12 = 5
  /\ exists t, TCPPacket.__init__ tcp_segment = Ok t
       /\ TCPPacket._data_offset t = 20480
       /\ TCPPacket.get_header_len t = 81920
       /\ TCPPacket.get_data_len t = -81900.
Proof.
  repeat split. eexists. split; [reflexivity|]. repeat split.
Qed.

(** ** Short slices (C2) *)

(** C2, as the claim has it, fails on an ICMP slice of 4 bytes: it is
    shorter than 8 bytes and decodes, with an empty [rest]. *)
Lemma C2_icmp_4_bytes_decode :
  len icmp_4_bytes < 8
  /\ ICMPPacket.__init__ icmp_4_bytes
     = Ok {| ICMPPacket.type := 0; ICMPPacket.code := 0;
             ICMPPacket.checksum := 0; ICMPPacket.rest := [] |}.
Proof. split; reflexivity. Qed.

(** C2, amended. A decoder raises, and builds nothing, on every slice
    shorter than what its [unpack] and [inet_ntoa] calls read: 20 bytes for
    IP ([struct.error] below 12 bytes, [socket.error] from 12 to 19), 20 for
    TCP, 8 for UDP and 4 for ICMP. *)
Theorem C2_short_slices_raise (buff : list byte) :
  (len buff < 20 ->
   IPPacket.__init__ buff
   = Raise (if len buff <? 12 then StructError else SocketError))
  /\ (len buff < 20 -> TCPPacket.__init__ buff = Raise StructError)
  /\ (len buff < 8 -> UDPPacket.__init__ buff = Raise StructError)
  /\ (len buff < 4 -> ICMPPacket.__init__ buff = Raise StructError).
Proof.
  split; [|split; [|split]].
  - apply IPPacket_short.
  - apply TCPPacket_short.
  - apply UDPPacket_short.
  - apply ICMPPacket_short.
Qed.

Lemma C2_short_slices_raise_witness :
  len [x45; x00; x00] < 4
  /\ IPPacket.__init__ [x45; x00; x00] = Raise StructError
  /\ TCPPacket.__init__ [x45; x00; x00] = Raise StructError
  /\ UDPPacket.__init__ [x45; x00; x00] = Raise StructError
  /\ ICMPPacket.__init__ [x45; x00; x00] = Raise StructError.
Proof.
  destruct (C2_short_slices_raise [x45; x00; x00]) as (Hip & Htcp & Hudp & Hicmp).
  split; [reflexivity|].
  split; [apply Hip; reflexivity|].
  split; [apply Htcp; reflexivity|].
  split; [apply Hudp; reflexivity|].
  apply Hicmp; reflexivity.
Defined.

(** ** Flow key (C3, C4) *)

(** C3. The flow key is absent when the payload is not a TCP packet; for a
    TCP payload it is (source address, source port, destination address,
    destination port) when [flip] is unset and (destination address,
    destination port, source address, source port) when it is set. *)
Theorem C3_to_tuple_cases (ippacket : IPPacket.t) (flip : bool) :
  to_tuple ippacket flip
  = match IPPacket.get_payload ippacket with
    | Some (TCP tcp) =>
        let ip := IPPacket._header ippacket in
        if flip
        then Some (IPPacket._dst_ip ip, TCPPacket._dst_port tcp,
                   IPPacket._src_ip ip, TCPPacket._src_port tcp)
        else Some (IPPacket._src_ip ip, TCPPacket._src_port tcp,
                   IPPacket._dst_ip ip, TCPPacket._dst_port tcp)
    | Some (UDP _) | Some (ICMP _) | None => None
    end.
Proof.
  unfold to_tuple.
  destruct (IPPacket.get_payload ippacket) as [[tcp|udp|icmp]|];
    destruct flip; reflexivity.
Qed.

(** The scenario of the flow key: 10.0.0.1:54321 to 10.0.0.2:80. *)
Lemma to_tuple_scenario :
  exists p, IPPacket.__init__ tcp_datagram = Ok p
    /\ to_tuple p false = Some ("10.0.0.1", 54321, "10.0.0.2", 80)%string
    /\ to_tuple p true = Some ("10.0.0.2", 80, "10.0.0.1", 54321)%string.
Proof.
  eexists. split; [reflexivity|]. split; reflexivity.
Qed.

(** C4, as the claim has it, fails on the datagram of the scenario: its
    payload is a TCP packet and the two flow keys differ. *)
Lemma C4_flip_changes_the_key :
  exists p tcp, IPPacket.__init__ tcp_datagram = Ok p
    /\ IPPacket.get_payload p = Some (TCP tcp)
    /\ to_tuple p true <> to_tuple p false.
Proof.
  eexists. eexists. split; [reflexivity|]. split; [reflexivity|].
  intros Heq. vm_compute in Heq. discriminate Heq.
Qed.

(** C4, amended. For a TCP payload the flow key with [flip] set is the flow
    key with [flip] unset with its endpoints exchanged; the two are equal
    only when the two addresses are equal and the two ports are equal. *)
Theorem C4_flip_swaps_endpoints (ippacket : IPPacket.t) (tcp : TCPPacket.t) :
  IPPacket.get_payload ippacket = Some (TCP tcp) ->
  to_tuple ippacket true = swap_endpoints <$> to_tuple ippacket false
  /\ (to_tuple ippacket true = to_tuple ippacket false
      <-> IPPacket._src_ip ippacket = IPPacket._dst_ip ippacket
          /\ TCPPacket._src_port tcp = TCPPacket._dst_port tcp).
Proof.
  intros Hp. unfold to_tuple. rewrite Hp. simpl. split; [reflexivity|].
  split.
  - intros Heq. injection Heq as H1 H2 H3 H4. split; congruence.
  - intros [Hip Hport]. rewrite Hip, Hport. reflexivity.
Qed.

Lemma C4_flip_swaps_endpoints_witness :
  exists p tcp, IPPacket.__init__ tcp_datagram = Ok p
    /\ IPPacket.get_payload p = Some (TCP tcp)
    /\ to_tuple p true = swap_endpoints <$> to_tuple p false.
Proof.
  eexists. eexists. split; [reflexivity|]. split; [reflexivity|].
  eapply C4_flip_swaps_endpoints. reflexivity.
Defined.

(** ** ICMP summary (C5) *)

Lemma ICMP_CODES_keys_are_pairs :
  Forall (fun kv : key * string => exists a b, kv.1 = KPair a b) ICMP_CODES_items.
Proof.
  unfold ICMP_CODES_items.
  repeat (apply Forall_cons_2; [eexists _, _; reflexivity|]).
  apply Forall_nil_2.
Qed.

(** No integer is a key of the code table. *)
Lemma ICMP_CODES_no_int (n : Z) : ICMP_CODES !! KInt n = None.
Proof.
  unfold ICMP_CODES. apply not_elem_of_list_to_map_1.
  intros Hin. apply list_elem_of_fmap in Hin.
  destruct Hin as ([k v] & Hk & Hkv).
  pose proof ICMP_CODES_keys_are_pairs as Hall.
  rewrite Forall_forall in Hall.
  destruct (Hall _ Hkv) as (a & b & Hab).
  simpl in Hk, Hab. subst k. discriminate Hab.
Qed.

(** The code name of the summary is "Unknown" for every packet. *)
Lemma ICMPPacket_code_name_unknown (p : ICMPPacket.t) :
  ICMPPacket.code_name p = "Unknown"%string.
Proof.
  unfold ICMPPacket.code_name, dict_get. rewrite ICMP_CODES_no_int. reflexivity.
Qed.

Lemma ICMP_TYPES_values (k : key) (v : string) :
  ICMP_TYPES !! k = Some v -> v <> "Unknown"%string.
Proof.
  unfold ICMP_TYPES. intros Hkv. apply elem_of_list_to_map_2 in Hkv.
  assert (Hall : Forall (fun kv : key * string => kv.2 <> "Unknown"%string)
                        ICMP_TYPES_items).
  { unfold ICMP_TYPES_items.
    repeat (apply Forall_cons_2; [simpl; discriminate|]). apply Forall_nil_2. }
  rewrite Forall_forall in Hall. exact (Hall _ Hkv).
Qed.

(** The type name is read at the key [type], and is "Unknown" exactly when
    the type table has no such key. *)
Lemma ICMPPacket_type_name_unknown (p : ICMPPacket.t) :
  ICMPPacket.type_name p = "Unknown"%string
  <-> ICMP_TYPES !! KInt (ICMPPacket.type p) = None.
Proof.
  unfold ICMPPacket.type_name, dict_get.
  destruct (ICMP_TYPES !! KInt (ICMPPacket.type p)) as [v|] eqn:Hv.
  - split; [|discriminate]. intros ->.
    exfalso. exact (ICMP_TYPES_values _ _ Hv eq_refl).
  - split; reflexivity.
Qed.

(** C5. The echo reply has type 0 and code 0, and the code table names the
    pair (0, 0) "Echo reply"; its summary still gives "Unknown" for the code,
    because the code table is read at the integer [code]. *)
Theorem C5_icmp_code_name_lookup :
  ICMP_CODES !! KPair 0 0 = Some "Echo reply"%string
  /\ exists p, ICMPPacket.__init__ icmp_echo_reply = Ok p
       /\ ICMPPacket.type p = 0
       /\ ICMPPacket.code p = 0
       /\ ICMPPacket.code_name p = "Unknown"%string
       /\ ICMPPacket.__unicode__ p
          = "ICMP Type 0 (Echo Reply) Code 0 (Unknown)"%string.
Proof.
  split; [vm_compute; reflexivity|].
  eexists. split; [reflexivity|].
  split; [reflexivity|]. split; [reflexivity|].
  split; [apply ICMPPacket_code_name_unknown|].
  vm_compute. reflexivity.
Qed.

(** The summary of a type and a code that no table has. *)
Lemma ICMPPacket_unicode_200 :
  exists p, ICMPPacket.__init__ [xc8; xc8; x00; x00; x00; x00; x00; x00] = Ok p
    /\ ICMPPacket.__unicode__ p
       = "ICMP Type 200 (Unknown) Code 200 (Unknown)"%string.
Proof.
  eexists. split; [reflexivity|]. vm_compute. reflexivity.
Qed.

(** ** IP header length (C6) *)

(** C6, as the claim has it, fails on a 20-byte datagram whose IHL nibble is
    0: it decodes, and the header length of the packet is 0. *)
Lemma C6_ihl_0_header_length :
  20 <= len ihl0_datagram
  /\ exists p, IPPacket.__init__ ihl0_datagram = Ok p
       /\ IPPacket.get_header_len p = 0
       /\ ~ (20 <= IPPacket.get_header_len p <= 60).
Proof.
  split; [unfold len; simpl; lia|].
  eexists. split; [reflexivity|]. split; [reflexivity|].
  intros [Hlo _]. apply Hlo. reflexivity.
Qed.

(** C6, amended. For every buffer of at least 20 bytes the fixed header
    parses, [_ihl] is the low nibble of byte 0, the header length is
    [_ihl * 4] and lies between 0 and 60; a packet decoded from the buffer
    has that header. *)
Theorem C6_ip_header_length (buff : list byte) :
  20 <= len buff ->
  exists h, IPPacket._parse_header buff = Ok h
    /\ IPPacket._ihl h = byte_at buff 0 mod 16
    /\ IPPacket.get_header_len h = IPPacket._ihl h * 4
    /\ 0 <= IPPacket.get_header_len h <= 60
    /\ forall p, IPPacket.__init__ buff = Ok p -> IPPacket._header p = h.
Proof.
  intros H.
  destruct (IPPacket_header_long buff H) as (h & Hh & Hihl & _).
  rewrite land_0xF in Hihl.
  exists h. split; [exact Hh|]. split; [exact Hihl|].
  split; [reflexivity|]. split.
  - unfold IPPacket.get_header_len. rewrite Hihl.
    pose proof (Z.mod_pos_bound (byte_at buff 0) 16). lia.
  - intros p Hp. exact (IPPacket_init_header buff h p Hh Hp).
Qed.

Lemma C6_ip_header_length_witness :
  20 <= len tcp_datagram
  /\ exists h, IPPacket._parse_header tcp_datagram = Ok h
       /\ IPPacket._ihl h = byte_at tcp_datagram 0 mod 16
       /\ IPPacket.get_header_len h = IPPacket._ihl h * 4
       /\ 0 <= IPPacket.get_header_len h <= 60
       /\ forall p, IPPacket.__init__ tcp_datagram = Ok p -> IPPacket._header p = h.
Proof.
  split; [unfold len; simpl; lia|].
  apply (C6_ip_header_length tcp_datagram). unfold len; simpl; lia.
Defined.

(** ** Payload dispatcher (C7) *)

Lemma payload_builder_tcp (payload_buff : list byte) :
  payload_builder payload_buff 6
  = let* p := TCPPacket.__init__ payload_buff in Ok (Some (TCP p)).
Proof. reflexivity. Qed.

Lemma payload_builder_udp (payload_buff : list byte) :
  payload_builder payload_buff 17
  = let* p := UDPPacket.__init__ payload_buff in Ok (Some (UDP p)).
Proof. reflexivity. Qed.

Lemma payload_builder_icmp (payload_buff : list byte) :
  payload_builder payload_buff 1
  = let* p := ICMPPacket.__init__ payload_buff in Ok (Some (ICMP p)).
Proof. reflexivity. Qed.

Lemma payload_builder_other (payload_buff : list byte) (protocol : Z) :
  protocol <> 6 -> protocol <> 17 -> protocol <> 1 ->
  payload_builder payload_buff protocol = Ok None.
Proof.
  intros H6 H17 H1. unfold payload_builder, IPPROTO_TCP, IPPROTO_UDP, IPPROTO_ICMP.
  destruct (Z.eqb_spec protocol 6); [contradiction|].
  destruct (Z.eqb_spec protocol 17); [contradiction|].
  destruct (Z.eqb_spec protocol 1); [contradiction|].
  reflexivity.
Qed.

(** C7. On a slice of at least 20 bytes the dispatcher returns a TCP packet
    for protocol 6, a UDP packet for protocol 17, an ICMP packet for
    protocol 1, each the one its decoder builds from the slice, and returns
    [None], raising nothing, for every other protocol. *)
Theorem C7_payload_builder_dispatch (payload_buff : list byte) :
  20 <= len payload_buff ->
  (exists t, TCPPacket.__init__ payload_buff = Ok t
     /\ payload_builder payload_buff 6 = Ok (Some (TCP t)))
  /\ (exists u, UDPPacket.__init__ payload_buff = Ok u
        /\ payload_builder payload_buff 17 = Ok (Some (UDP u)))
  /\ (exists i, ICMPPacket.__init__ payload_buff = Ok i
        /\ payload_builder payload_buff 1 = Ok (Some (ICMP i)))
  /\ (forall protocol, protocol <> 6 -> protocol <> 17 -> protocol <> 1 ->
        payload_builder payload_buff protocol = Ok None).
Proof.
  intros H. split; [|split; [|split]].
  - destruct (TCPPacket_long payload_buff H) as (t & Ht & _).
    exists t. split; [exact Ht|]. rewrite payload_builder_tcp, Ht. reflexivity.
  - destruct (UDPPacket_long payload_buff ltac:(lia)) as (u & Hu & _).
    exists u. split; [exact Hu|]. rewrite payload_builder_udp, Hu. reflexivity.
  - destruct (ICMPPacket_long payload_buff ltac:(lia)) as (i & Hi & _).
    exists i. split; [exact Hi|]. rewrite payload_builder_icmp, Hi. reflexivity.
  - intros protocol. apply payload_builder_other.
Qed.

Lemma C7_payload_builder_dispatch_witness :
  20 <= len tcp_segment
  /\ (exists t, TCPPacket.__init__ tcp_segment = Ok t
        /\ payload_builder tcp_segment 6 = Ok (Some (TCP t)))
  /\ (exists u, UDPPacket.__init__ tcp_segment = Ok u
        /\ payload_builder tcp_segment 17 = Ok (Some (UDP u)))
  /\ (exists i, ICMPPacket.__init__ tcp_segment = Ok i
        /\ payload_builder tcp_segment 1 = Ok (Some (ICMP i)))
  /\ payload_builder tcp_segment 47 = Ok None.
Proof.
  destruct (C7_payload_builder_dispatch tcp_segment
              ltac:(unfold len; simpl; lia))
    as (Htcp & Hudp & Hicmp & Hother).
  split; [unfold len; simpl; lia|].
  split; [exact Htcp|]. split; [exact Hudp|]. split; [exact Hicmp|].
  apply Hother; lia.
Defined.

(** ** TCP flags (C8) *)

(** C8. On every slice of at least 20 bytes the TCP decoder returns a
    packet, and each of its nine flags is true exactly when the 16-bit field
    of bytes 12 and 13 has a bit in common with the mask of the flag. *)
Theorem C8_tcp_flags (buff : list byte) :
  20 <= len buff ->
  exists t, TCPPacket.__init__ buff = Ok t
    /\ (truthy (TCPPacket.flag_ns t) = true <-> Z.land (field16 buff 12) 0x0100 <> 0)
    /\ (truthy (TCPPacket.flag_cwr t) = true <-> Z.land (field16 buff 12) 0x0080 <> 0)
    /\ (truthy (TCPPacket.flag_ece t) = true <-> Z.land (field16 buff 12) 0x0040 <> 0)
    /\ (truthy (TCPPacket.flag_urg t) = true <-> Z.land (field16 buff 12) 0x0020 <> 0)
    /\ (truthy (TCPPacket.flag_ack t) = true <-> Z.land (field16 buff 12) 0x0010 <> 0)
    /\ (truthy (TCPPacket.flag_psh t) = true <-> Z.land (field16 buff 12) 0x0008 <> 0)
    /\ (truthy (TCPPacket.flag_rst t) = true <-> Z.land (field16 buff 12) 0x0004 <> 0)
    /\ (truthy (TCPPacket.flag_syn t) = true <-> Z.land (field16 buff 12) 0x0002 <> 0)
    /\ (truthy (TCPPacket.flag_fin t) = true <-> Z.land (field16 buff 12) 0x0001 <> 0).
Proof.
  intros H.
  destruct (TCPPacket_long buff H)
    as (t & Ht & _ & _ & _ & _ & Hns & Hcwr & Hece & Hurg & Hack & Hpsh
        & Hrst & Hsyn & Hfin).
  exists t. split; [exact Ht|].
  rewrite Hns, Hcwr, Hece, Hurg, Hack, Hpsh, Hrst, Hsyn, Hfin.
  repeat (split; [apply truthy_iff|]). apply truthy_iff.
Qed.

Lemma C8_tcp_flags_witness :
  20 <= len tcp_segment
  /\ field16 tcp_segment 12 = 0x5018
  /\ exists t, TCPPacket.__init__ tcp_segment = Ok t
       /\ truthy (TCPPacket.flag_ack t) = true
       /\ truthy (TCPPacket.flag_psh t) = true
       /\ truthy (TCPPacket.flag_syn t) = false.
Proof.
  split; [unfold len; simpl; lia|]. split; [reflexivity|].
  destruct (C8_tcp_flags tcp_segment ltac:(unfold len; simpl; lia))
    as (t & Ht & _ & _ & _ & _ & Hack & Hpsh & _ & Hsyn & _).
  exists t. split; [exact Ht|].
  split; [apply Hack; discriminate|].
  split; [apply Hpsh; discriminate|].
  destruct (truthy (TCPPacket.flag_syn t)); [|reflexivity].
  exfalso. apply (proj1 Hsyn eq_refl). reflexivity.
Defined.

(** ** DSCP and ECN (C9) *)

(** C9, as the claim has it, fails on a datagram whose second byte is
    [0x04]: the bottom 2 bits of that byte are 0, and [_ecn] is 4. *)
Lemma C9_ecn_is_4 :
  20 <= len tos4_datagram
  /\ byte_at tos4_datagram 1 = 4
  /\ Z.land (byte_at tos4_datagram 1) 0x3 = 0
  /\ exists p, IPPacket.__init__ tos4_datagram = Ok p
       /\ IPPacket._ecn p = 4
       /\ ~ IPPacket._ecn p <= 3.
Proof.
  split; [unfold len; simpl; lia|]. split; [reflexivity|]. split; [reflexivity|].
  eexists. split; [reflexivity|]. split; [reflexivity|].
  intros Hle. apply Hle. reflexivity.
Qed.

(** C9, amended. For every buffer of at least 20 bytes the fixed header
    parses, [_dscp] is the top 5 bits of byte 1 and [_ecn] its bottom 3
    bits, so that [_dscp] is at most 31, [_ecn] at most 7, and the two make
    up the byte; a packet decoded from the buffer has that header. *)
Theorem C9_dscp_ecn (buff : list byte) :
  20 <= len buff ->
  exists h, IPPacket._parse_header buff = Ok h
    /\ IPPacket._dscp h = Z.shiftr (byte_at buff 1) 3
    /\ IPPacket._ecn h = Z.land (byte_at buff 1) 0x7
    /\ 0 <= IPPacket._dscp h <= 31
    /\ 0 <= IPPacket._ecn h <= 7
    /\ byte_at buff 1 = IPPacket._dscp h * 8 + IPPacket._ecn h
    /\ forall p, IPPacket.__init__ buff = Ok p -> IPPacket._header p = h.
Proof.
  intros H.
  destruct (IPPacket_header_long buff H) as (h & Hh & _ & Hdscp & Hecn & _).
  pose proof (byte_val_range (nth 1 buff x00)) as Hb. fold (byte_at buff 1) in Hb.
  assert (Hd : IPPacket._dscp h = byte_at buff 1 / 8).
  { rewrite Hdscp, land_0x1F, shiftr_3. apply Z.mod_small.
    split; [apply Z.div_pos; lia|]. apply Z.div_lt_upper_bound; lia. }
  assert (He : IPPacket._ecn h = byte_at buff 1 mod 8).
  { rewrite Hecn. apply land_0x7. }
  exists h. split; [exact Hh|].
  split; [rewrite Hd, shiftr_3; reflexivity|].
  split; [exact Hecn|].
  pose proof (Z.div_mod (byte_at buff 1) 8 ltac:(lia)) as Hdm.
  pose proof (Z.mod_pos_bound (byte_at buff 1) 8 ltac:(lia)) as Hm.
  rewrite Hd, He.
  split; [lia|]. split; [lia|]. split; [lia|].
  intros p Hp. exact (IPPacket_init_header buff h p Hh Hp).
Qed.

Lemma C9_dscp_ecn_witness :
  20 <= len tos4_datagram
  /\ exists h, IPPacket._parse_header tos4_datagram = Ok h
       /\ IPPacket._dscp h = Z.shiftr (byte_at tos4_datagram 1) 3
       /\ IPPacket._ecn h = Z.land (byte_at tos4_datagram 1) 0x7.
Proof.
  split; [unfold len; simpl; lia|].
  destruct (C9_dscp_ecn tos4_datagram ltac:(unfold len; simpl; lia))
    as (h & Hh & Hdscp & Hecn & _).
  exists h. split; [exact Hh|]. split; [exact Hdscp|exact Hecn].
Defined.

(** ** Truncated payload (C10) *)

(** C10, as the claim has it, fails on a 20-byte header that announces a TCP
    payload: the header parses, the slice left for the TCP decoder is empty,
    and [__init__] raises instead of returning a packet. *)
Lemma C10_bare_tcp_header_raises :
  20 <= len bare_tcp_header
  /\ is_ok (IPPacket._parse_header bare_tcp_header) = true
  /\ byte_at bare_tcp_header 9 = 6
  /\ IPPacket.__init__ bare_tcp_header = Raise StructError.
Proof.
  split; [unfold len; simpl; lia|]. repeat split.
Qed.

(** C10, amended. For every buffer of at least 20 bytes the fixed header
    parses; when its protocol selects a decoder and the bytes after the
    header are fewer than that decoder reads (20 for TCP, 8 for UDP, 4 for
    ICMP), [__init__] raises [struct.error] and returns no packet. *)
Theorem C10_truncated_payload_raises (buff : list byte) :
  20 <= len buff ->
  (byte_at buff 9 = 6 /\ len (slice_from buff (byte_at buff 0 mod 16 * 4)) < 20)
  \/ (byte_at buff 9 = 17 /\ len (slice_from buff (byte_at buff 0 mod 16 * 4)) < 8)
  \/ (byte_at buff 9 = 1 /\ len (slice_from buff (byte_at buff 0 mod 16 * 4)) < 4) ->
  (exists h, IPPacket._parse_header buff = Ok h
     /\ IPPacket._protocol h = byte_at buff 9
     /\ IPPacket.get_header_len h = byte_at buff 0 mod 16 * 4)
  /\ IPPacket.__init__ buff = Raise StructError.
Proof.
  intros H Hshort.
  destruct (IPPacket_header_long buff H) as (h & Hh & Hihl & _ & _ & Hproto).
  rewrite land_0xF in Hihl.
  assert (Hlen : IPPacket.get_header_len h = byte_at buff 0 mod 16 * 4).
  { unfold IPPacket.get_header_len. rewrite Hihl. reflexivity. }
  split; [exists h; auto|].
  rewrite (IPPacket_init_unfold buff h Hh), Hlen, Hproto.
  destruct Hshort as [[-> Hs] | [[-> Hs] | [-> Hs]]].
  - rewrite payload_builder_tcp, TCPPacket_short by exact Hs. reflexivity.
  - rewrite payload_builder_udp, UDPPacket_short by exact Hs. reflexivity.
  - rewrite payload_builder_icmp, ICMPPacket_short by exact Hs. reflexivity.
Qed.

Lemma C10_truncated_payload_raises_witness :
  20 <= len bare_tcp_header
  /\ byte_at bare_tcp_header 9 = 6
  /\ len (slice_from bare_tcp_header (byte_at bare_tcp_header 0 mod 16 * 4)) < 20
  /\ IPPacket.__init__ bare_tcp_header = Raise StructError.
Proof.
  assert (Hlen : 20 <= len bare_tcp_header) by (unfold len; simpl; lia).
  assert (Hproto : byte_at bare_tcp_header 9 = 6) by reflexivity.
  assert (Hrest : len (slice_from bare_tcp_header
                         (byte_at bare_tcp_header 0 mod 16 * 4)) < 20)
    by reflexivity.
  split; [exact Hlen|]. split; [exact Hproto|]. split; [exact Hrest|].
  exact (proj2 (C10_truncated_payload_raises bare_tcp_header Hlen
                  (or_introl (conj Hproto Hrest)))).
Defined.

(** * Further properties of the decoders *)

(** ** Slices *)

Lemma len_nonneg (buff : list byte) : 0 <= len buff.
Proof. unfold len. lia. Qed.

Lemma len_slice (buff : list byte) (a b : Z) :
  0 <= a -> len (slice buff a b) = Z.max 0 (Z.min (len buff) b - a).
Proof.
  intros Ha. unfold len, slice. rewrite length_take, length_drop. lia.
Qed.

Lemma len_slice_from (buff : list byte) (a : Z) :
  0 <= a -> len (slice_from buff a) = Z.max 0 (len buff - a).
Proof.
  intros Ha. unfold len, slice_from. rewrite length_drop. lia.
Qed.

(** Two adjacent slices and the rest of the buffer make up the buffer. *)
Lemma slice_partition (buff : list byte) (a b : Z) :
  0 <= a <= b ->
  slice buff 0 a ++ slice buff a b ++ slice_from buff b = buff.
Proof.
  intros [Ha Hab]. unfold slice, slice_from.
  replace (Z.to_nat (a - 0)) with (Z.to_nat a) by lia.
  replace (Z.to_nat b) with (Z.to_nat a + Z.to_nat (b - a))%nat by lia.
  rewrite <- drop_drop. simpl drop at 1.
  rewrite (take_drop (Z.to_nat (b - a))). apply take_drop.
Qed.

Lemma byte_at_slice_from (buff : list byte) (a : Z) (i : nat) :
  byte_at (slice_from buff a) i = byte_at buff (Z.to_nat a + i).
Proof. unfold byte_at, slice_from. rewrite nth_skipn. reflexivity. Qed.

Lemma field16_slice_from (buff : list byte) (a : Z) (i : nat) :
  field16 (slice_from buff a) i = field16 buff (Z.to_nat a + i).
Proof.
  unfold field16. rewrite !byte_at_slice_from.
  replace (Z.to_nat a + S i)%nat with (S (Z.to_nat a + i)) by lia. reflexivity.
Qed.

Lemma byte_at_range (buff : list byte) (i : nat) : 0 <= byte_at buff i < 256.
Proof. apply byte_val_range. Qed.

Lemma is_ok_Ok {A : Type} (r : result A) : is_ok r = true <-> exists a, r = Ok a.
Proof.
  destruct r as [a|e]; simpl; split.
  - intros _. exists a. reflexivity.
  - reflexivity.
  - discriminate.
  - intros [a Ha]. discriminate Ha.
Qed.

(** ** When a decoder returns and when it raises *)

(** X1. The TCP decoder returns a packet exactly on the slices of at least 20
    bytes, and raises [struct.error] on all the others, whatever the bytes
    are (a data offset beyond the slice included). *)
Theorem TCPPacket_init_outcome (buff : list byte) :
  (is_ok (TCPPacket.__init__ buff) = true <-> 20 <= len buff)
  /\ (TCPPacket.__init__ buff = Raise StructError <-> len buff < 20).
Proof.
  destruct (Z.lt_ge_cases (len buff) 20) as [Hs | Hl].
  - rewrite (TCPPacket_short buff Hs). simpl.
    split; split; intros; (lia || discriminate || reflexivity).
  - destruct (TCPPacket_long buff Hl) as (t & Ht & _). rewrite Ht. simpl.
    split; split; intros; (lia || discriminate || reflexivity).
Qed.

(** X2. The UDP decoder returns a packet exactly on the slices of at least 8
    bytes and raises [struct.error] on the others. *)
Theorem UDPPacket_init_outcome (buff : list byte) :
  (is_ok (UDPPacket.__init__ buff) = true <-> 8 <= len buff)
  /\ (UDPPacket.__init__ buff = Raise StructError <-> len buff < 8).
Proof.
  destruct (Z.lt_ge_cases (len buff) 8) as [Hs | Hl].
  - rewrite (UDPPacket_short buff Hs). simpl.
    split; split; intros; (lia || discriminate || reflexivity).
  - destruct (UDPPacket_long buff Hl) as (u & Hu & _). rewrite Hu. simpl.
    split; split; intros; (lia || discriminate || reflexivity).
Qed.

(** X3. The ICMP decoder returns a packet exactly on the slices of at least 4
    bytes and raises [struct.error] on the others. *)
Theorem ICMPPacket_init_outcome (buf : list byte) :
  (is_ok (ICMPPacket.__init__ buf) = true <-> 4 <= len buf)
  /\ (ICMPPacket.__init__ buf = Raise StructError <-> len buf < 4).
Proof.
  destruct (Z.lt_ge_cases (len buf) 4) as [Hs | Hl].
  - rewrite (ICMPPacket_short buf Hs). simpl.
    split; split; intros; (lia || discriminate || reflexivity).
  - destruct (ICMPPacket_long buf Hl) as (i & Hi & _). rewrite Hi. simpl.
    split; split; intros; (lia || discriminate || reflexivity).
Qed.

(** When the dispatcher returns, and what it raises when it does not. *)
Lemma payload_builder_is_ok (payload_buff : list byte) (protocol : Z) :
  (is_ok (payload_builder payload_buff protocol) = true
   <-> (protocol = 6 -> 20 <= len payload_buff)
       /\ (protocol = 17 -> 8 <= len payload_buff)
       /\ (protocol = 1 -> 4 <= len payload_buff))
  /\ (is_ok (payload_builder payload_buff protocol) = false
      <-> payload_builder payload_buff protocol = Raise StructError).
Proof.
  destruct (Z.eq_dec protocol 6) as [-> | H6];
    [|destruct (Z.eq_dec protocol 17) as [-> | H17];
      [|destruct (Z.eq_dec protocol 1) as [-> | H1]]].
  - rewrite payload_builder_tcp.
    destruct (Z.lt_ge_cases (len payload_buff) 20) as [Hs | Hl].
    + rewrite (TCPPacket_short _ Hs). simpl.
      split; split; intros; try reflexivity; try discriminate; lia.
    + destruct (TCPPacket_long _ Hl) as (t & Ht & _). rewrite Ht. simpl.
      split; split; intros; try reflexivity; try discriminate.
      repeat split; intros; (lia || discriminate).
  - rewrite payload_builder_udp.
    destruct (Z.lt_ge_cases (len payload_buff) 8) as [Hs | Hl].
    + rewrite (UDPPacket_short _ Hs). simpl.
      split; split; intros; try reflexivity; try discriminate; lia.
    + destruct (UDPPacket_long _ Hl) as (u & Hu & _). rewrite Hu. simpl.
      split; split; intros; try reflexivity; try discriminate.
      repeat split; intros; (lia || discriminate).
  - rewrite payload_builder_icmp.
    destruct (Z.lt_ge_cases (len payload_buff) 4) as [Hs | Hl].
    + rewrite (ICMPPacket_short _ Hs). simpl.
      split; split; intros; try reflexivity; try discriminate; lia.
    + destruct (ICMPPacket_long _ Hl) as (i & Hi & _). rewrite Hi. simpl.
      split; split; intros; try reflexivity; try discriminate.
      repeat split; intros; (lia || discriminate).
  - rewrite (payload_builder_other _ _ H6 H17 H1). simpl.
    split; split; intros; try reflexivity; try discriminate.
    repeat split; intros; contradiction.
Qed.


(** What a packet returned by the dispatcher says about the call. *)
Lemma payload_builder_inv (payload_buff : list byte) (protocol : Z)
      (r : option payload) :
  payload_builder payload_buff protocol = Ok r ->
  match r with
  | Some (TCP t) => protocol = 6 /\ TCPPacket.__init__ payload_buff = Ok t
  | Some (UDP u) => protocol = 17 /\ UDPPacket.__init__ payload_buff = Ok u
  | Some (ICMP i) => protocol = 1 /\ ICMPPacket.__init__ payload_buff = Ok i
  | None => protocol <> 6 /\ protocol <> 17 /\ protocol <> 1
  end.
Proof.
  unfold payload_builder, IPPROTO_TCP, IPPROTO_UDP, IPPROTO_ICMP.
  destruct (Z.eqb_spec protocol 6) as [-> | H6].
  { destruct (TCPPacket.__init__ payload_buff) as [t|e]; simpl; [|discriminate].
    intros [= <-]. split; reflexivity. }
  destruct (Z.eqb_spec protocol 17) as [-> | H17].
  { destruct (UDPPacket.__init__ payload_buff) as [u|e]; simpl; [|discriminate].
    intros [= <-]. split; reflexivity. }
  destruct (Z.eqb_spec protocol 1) as [-> | H1].
  { destruct (ICMPPacket.__init__ payload_buff) as [i|e]; simpl; [|discriminate].
    intros [= <-]. split; reflexivity. }
  intros [= <-]. repeat split; assumption.
Qed.

(** What a packet returned by [IPPacket.__init__] says about the call. *)
Lemma IPPacket_init_inv (buff : list byte) (p : IPPacket.t) :
  IPPacket.__init__ buff = Ok p ->
  20 <= len buff
  /\ IPPacket._parse_header buff = Ok (IPPacket._header p)
  /\ payload_builder (slice_from buff (IPPacket.get_header_len p))
                     (IPPacket._protocol p)
     = Ok (IPPacket._payload p).
Proof.
  intros Hp.
  destruct (Z.lt_ge_cases (len buff) 20) as [Hs | Hl].
  { rewrite (IPPacket_short buff Hs) in Hp. discriminate Hp. }
  split; [exact Hl|].
  destruct (IPPacket_header_long buff Hl) as (h & Hh & _).
  rewrite (IPPacket_init_unfold buff h Hh) in Hp.
  destruct (payload_builder _ _) as [payload|e] eqn:Hpb; simpl in Hp; [|discriminate].
  injection Hp as <-. simpl. split; [exact Hh|exact Hpb].
Qed.

(** X5. [IPPacket.__init__] returns a packet exactly when the buffer has its 20
    bytes of fixed header and, for protocol 6, 17 or 1, at least 20, 8 or 4
    bytes from offset IHL * 4 on. Nothing else is required of the buffer:
    neither IHL >= 5 nor a total length that agrees with it. *)
Theorem IPPacket_init_outcome (buff : list byte) :
  is_ok (IPPacket.__init__ buff) = true
  <-> 20 <= len buff
      /\ (byte_at buff 9 = 6 -> 20 <= len buff - byte_at buff 0 mod 16 * 4)
      /\ (byte_at buff 9 = 17 -> 8 <= len buff - byte_at buff 0 mod 16 * 4)
      /\ (byte_at buff 9 = 1 -> 4 <= len buff - byte_at buff 0 mod 16 * 4).
Proof.
  destruct (Z.lt_ge_cases (len buff) 20) as [Hs | Hl].
  { rewrite (IPPacket_short buff Hs). simpl. split; [discriminate|lia]. }
  destruct (IPPacket_header_long buff Hl) as (h & Hh & Hihl & _ & _ & Hproto).
  rewrite land_0xF in Hihl.
  rewrite (IPPacket_init_unfold buff h Hh).
  unfold IPPacket.get_header_len. rewrite Hihl, Hproto.
  pose proof (Z.mod_pos_bound (byte_at buff 0) 16 ltac:(lia)) as Hm.
  set (hl := byte_at buff 0 mod 16 * 4) in *.
  pose proof (len_slice_from buff hl ltac:(lia)) as Hrest.
  destruct (payload_builder_is_ok (slice_from buff hl) (byte_at buff 9))
    as [Hok _].
  rewrite Hrest in Hok.
  destruct (payload_builder (slice_from buff hl) (byte_at buff 9)) as [r|e];
    simpl in *.
  - split; [intros _|reflexivity].
    destruct (proj1 Hok eq_refl) as (H6 & H17 & H1).
    repeat split; [exact Hl| | |]; intros Hp;
      [specialize (H6 Hp)|specialize (H17 Hp)|specialize (H1 Hp)]; lia.
  - split; [discriminate|]. intros (_ & H6 & H17 & H1).
    apply Hok. repeat split; intros Hp;
      [specialize (H6 Hp)|specialize (H17 Hp)|specialize (H1 Hp)]; lia.
Qed.

(** ** The fields of the IP header *)

(** Where each attribute of the fixed header comes from. *)
Lemma IPPacket_header_fields (buff : list byte) :
  20 <= len buff ->
  exists h, IPPacket._parse_header buff = Ok h
    /\ IPPacket._version h = Z.land (Z.shiftr (byte_at buff 0) 4) 0xF
    /\ IPPacket._ihl h = Z.land (byte_at buff 0) 0xF
    /\ IPPacket._total_length h = field16 buff 2
    /\ IPPacket._id h = field16 buff 4
    /\ IPPacket._flags h = Z.land (Z.shiftr (field16 buff 6) 13) 0x7
    /\ IPPacket._frag_offset h = Z.land (field16 buff 6) 0x1FFF
    /\ IPPacket._ttl h = byte_at buff 8
    /\ IPPacket._protocol h = byte_at buff 9
    /\ IPPacket._checksum h = field16 buff 10
    /\ inet_ntoa (slice buff 12 16) = Ok (IPPacket._src_ip h)
    /\ inet_ntoa (slice buff 16 20) = Ok (IPPacket._dst_ip h)
    /\ IPPacket._options h = slice buff 20 (IPPacket._ihl h * 4).
Proof.
  intros H. long_enough buff. repeat split; reflexivity.
Qed.

(** The header of a decoded packet is the one [IPPacket_header_fields]
    describes. *)
Lemma IPPacket_init_fields (buff : list byte) (p : IPPacket.t) :
  IPPacket.__init__ buff = Ok p ->
  20 <= len buff
  /\ IPPacket._protocol p = byte_at buff 9
  /\ IPPacket.get_header_len p = byte_at buff 0 mod 16 * 4
  /\ inet_ntoa (slice buff 12 16) = Ok (IPPacket._src_ip p)
  /\ inet_ntoa (slice buff 16 20) = Ok (IPPacket._dst_ip p)
  /\ payload_builder (slice_from buff (byte_at buff 0 mod 16 * 4)) (byte_at buff 9)
     = Ok (IPPacket._payload p).
Proof.
  intros Hp. destruct (IPPacket_init_inv buff p Hp) as (Hl & Hh & Hpb).
  destruct (IPPacket_header_fields buff Hl)
    as (h & Hh' & _ & Hihl & _ & _ & _ & _ & _ & Hproto & _ & Hsrc & Hdst & _).
  rewrite Hh in Hh'. injection Hh' as <-.
  rewrite land_0xF in Hihl.
  assert (Hhl : IPPacket.get_header_len p = byte_at buff 0 mod 16 * 4).
  { unfold IPPacket.get_header_len. rewrite Hihl. reflexivity. }
  rewrite Hhl, Hproto in Hpb. auto 10.
Qed.

(** What a packet returned by a transport decoder says about the slice. *)
Lemma TCPPacket_init_inv (buff : list byte) (t : TCPPacket.t) :
  TCPPacket.__init__ buff = Ok t ->
  20 <= len buff
  /\ TCPPacket._src_port t = field16 buff 0
  /\ TCPPacket._dst_port t = field16 buff 2
  /\ TCPPacket._data_offset t = Z.land (field16 buff 12) 0xF000
  /\ TCPPacket._total_length t = len buff.
Proof.
  intros Ht.
  destruct (Z.lt_ge_cases (len buff) 20) as [Hs|Hl].
  { rewrite (TCPPacket_short _ Hs) in Ht. discriminate Ht. }
  destruct (TCPPacket_long _ Hl) as (t' & Ht' & Hsp & Hdp & Hoff & Htl & _).
  rewrite Ht in Ht'. injection Ht' as <-. auto.
Qed.

Lemma UDPPacket_init_inv (buff : list byte) (u : UDPPacket.t) :
  UDPPacket.__init__ buff = Ok u ->
  8 <= len buff
  /\ UDPPacket._src_port u = field16 buff 0
  /\ UDPPacket._dst_port u = field16 buff 2
  /\ UDPPacket._total_length u = len buff.
Proof.
  intros Hu.
  destruct (Z.lt_ge_cases (len buff) 8) as [Hs|Hl].
  { rewrite (UDPPacket_short _ Hs) in Hu. discriminate Hu. }
  destruct (UDPPacket_long _ Hl) as (u' & Hu' & Hsp & Hdp & Htl).
  rewrite Hu in Hu'. injection Hu' as <-. auto.
Qed.

Lemma ICMPPacket_init_inv (buf : list byte) (i : ICMPPacket.t) :
  ICMPPacket.__init__ buf = Ok i ->
  4 <= len buf
  /\ ICMPPacket.type i = byte_at buf 0
  /\ ICMPPacket.code i = byte_at buf 1
  /\ ICMPPacket.rest i = slice buf 4 8.
Proof.
  intros Hi.
  destruct (Z.lt_ge_cases (len buf) 4) as [Hs|Hl].
  { rewrite (ICMPPacket_short _ Hs) in Hi. discriminate Hi. }
  destruct (ICMPPacket_long _ Hl) as (i' & Hi' & Hty & Hco & Hrest).
  rewrite Hi in Hi'. injection Hi' as <-. auto.
Qed.

(** ** The payload of a decoded datagram *)

(** X6. The payload of a decoded datagram is of the kind its protocol byte
    selects: a TCP packet only for protocol 6, a UDP packet only for 17, an
    ICMP packet only for 1, and [None] only for another protocol. *)
Theorem IPPacket_payload_matches_protocol (buff : list byte) (p : IPPacket.t) :
  IPPacket.__init__ buff = Ok p ->
  IPPacket.get_protocol p = byte_at buff 9
  /\ match IPPacket.get_payload p with
     | Some (TCP _) => byte_at buff 9 = 6
     | Some (UDP _) => byte_at buff 9 = 17
     | Some (ICMP _) => byte_at buff 9 = 1
     | None => byte_at buff 9 <> 6 /\ byte_at buff 9 <> 17 /\ byte_at buff 9 <> 1
     end.
Proof.
  intros Hp.
  destruct (IPPacket_init_fields buff p Hp) as (_ & Hproto & _ & _ & _ & Hpb).
  split; [exact Hproto|].
  apply payload_builder_inv in Hpb. unfold IPPacket.get_payload.
  destruct (IPPacket._payload p) as [[t|u|i]|]; tauto.
Qed.

Lemma IPPacket_payload_matches_protocol_witness :
  exists p, IPPacket.__init__ tcp_datagram = Ok p
    /\ IPPacket.get_protocol p = byte_at tcp_datagram 9
    /\ byte_at tcp_datagram 9 = 6.
Proof.
  eexists. split; [reflexivity|].
  pose proof (IPPacket_payload_matches_protocol tcp_datagram _ eq_refl) as [Hproto Hkind].
  split; [exact Hproto|exact Hkind].
Defined.

(** X7. The payload of a decoded datagram is decoded from the bytes that start
    at offset IHL * 4 of the buffer, wherever that is: its ports (its type
    and code for ICMP) are the fields found there, and the length a TCP or
    UDP packet records is the number of bytes from that offset to the end of
    the buffer. *)
Theorem IPPacket_payload_fields (buff : list byte) (p : IPPacket.t) :
  IPPacket.__init__ buff = Ok p ->
  let off := Z.to_nat (byte_at buff 0 mod 16 * 4) in
  match IPPacket.get_payload p with
  | Some (TCP t) =>
      TCPPacket._src_port t = field16 buff off
      /\ TCPPacket._dst_port t = field16 buff (off + 2)
      /\ TCPPacket._total_length t = len buff - Z.of_nat off
  | Some (UDP u) =>
      UDPPacket._src_port u = field16 buff off
      /\ UDPPacket._dst_port u = field16 buff (off + 2)
      /\ UDPPacket.get_data_len u = len buff - Z.of_nat off - 8
  | Some (ICMP i) =>
      ICMPPacket.type i = byte_at buff off
      /\ ICMPPacket.code i = byte_at buff (off + 1)
  | None => True
  end.
Proof.
  intros Hp off.
  destruct (IPPacket_init_fields buff p Hp) as (_ & _ & _ & _ & _ & Hpb).
  pose proof (Z.mod_pos_bound (byte_at buff 0) 16 ltac:(lia)) as Hm.
  set (hl := byte_at buff 0 mod 16 * 4) in *.
  pose proof (len_slice_from buff hl ltac:(lia)) as Hrest.
  assert (Hoff : (Z.to_nat hl + 0)%nat = off) by (unfold off; lia).
  apply payload_builder_inv in Hpb. unfold IPPacket.get_payload.
  destruct (IPPacket._payload p) as [[t|u|i]|]; [| | |exact I];
    destruct Hpb as [_ Hq].
  - destruct (TCPPacket_init_inv _ t Hq) as (Hl & Hsp & Hdp & _ & Htl).
    rewrite Hsp, Hdp, Htl, !field16_slice_from, Hoff.
    repeat split; unfold off; lia.
  - destruct (UDPPacket_init_inv _ u Hq) as (Hl & Hsp & Hdp & Htl).
    unfold UDPPacket.get_data_len, UDPPacket.get_header_len.
    rewrite Hsp, Hdp, Htl, !field16_slice_from, Hoff.
    repeat split; unfold off; lia.
  - destruct (ICMPPacket_init_inv _ i Hq) as (Hl & Hty & Hco & _).
    rewrite Hty, Hco, !byte_at_slice_from, Hoff.
    split; reflexivity.
Qed.

Lemma IPPacket_payload_fields_witness :
  exists p t, IPPacket.__init__ tcp_datagram = Ok p
    /\ IPPacket.get_payload p = Some (TCP t)
    /\ TCPPacket._src_port t = field16 tcp_datagram 20
    /\ TCPPacket._dst_port t = field16 tcp_datagram 22
    /\ TCPPacket._total_length t = len tcp_datagram - 20.
Proof.
  eexists. eexists. split; [reflexivity|]. split; [reflexivity|].
  exact (IPPacket_payload_fields tcp_datagram _ eq_refl).
Defined.

(** ** The flow key of a decoded datagram *)

(** X8. A decoded datagram has a flow key exactly when its protocol byte is 6,
    whatever the flag. *)
Theorem to_tuple_none_iff (buff : list byte) (p : IPPacket.t) (flip : bool) :
  IPPacket.__init__ buff = Ok p ->
  (to_tuple p flip = None <-> byte_at buff 9 <> 6).
Proof.
  intros Hp.
  destruct (IPPacket_init_fields buff p Hp) as (_ & _ & _ & _ & _ & Hpb).
  apply payload_builder_inv in Hpb. unfold to_tuple, IPPacket.get_payload.
  destruct (IPPacket._payload p) as [[t|u|i]|]; destruct flip; simpl;
    split; intros; try reflexivity; try discriminate; lia.
Qed.

Lemma to_tuple_none_iff_witness :
  exists p, IPPacket.__init__ ihl0_datagram = Ok p
    /\ (to_tuple p false = None <-> byte_at ihl0_datagram 9 <> 6).
Proof.
  eexists. split; [reflexivity|].
  exact (to_tuple_none_iff ihl0_datagram _ false eq_refl).
Defined.

(** X9. The flow key of a decoded TCP datagram is read off the buffer: the
    addresses are the dotted quads of bytes 12-15 and 16-19, and the ports
    are the two 16-bit fields at offset IHL * 4. *)
Theorem to_tuple_of_datagram (buff : list byte) (p : IPPacket.t) :
  IPPacket.__init__ buff = Ok p ->
  byte_at buff 9 = 6 ->
  let off := Z.to_nat (byte_at buff 0 mod 16 * 4) in
  exists src dst,
    inet_ntoa (slice buff 12 16) = Ok src
    /\ inet_ntoa (slice buff 16 20) = Ok dst
    /\ to_tuple p false = Some (src, field16 buff off, dst, field16 buff (off + 2))
    /\ to_tuple p true = Some (dst, field16 buff (off + 2), src, field16 buff off).
Proof.
  intros Hp H6 off.
  destruct (IPPacket_init_fields buff p Hp) as (_ & _ & _ & Hsrc & Hdst & Hpb).
  pose proof (Z.mod_pos_bound (byte_at buff 0) 16 ltac:(lia)) as Hm.
  exists (IPPacket._src_ip p), (IPPacket._dst_ip p).
  split; [exact Hsrc|]. split; [exact Hdst|].
  apply payload_builder_inv in Hpb. unfold to_tuple, IPPacket.get_payload.
  destruct (IPPacket._payload p) as [[t|u|i]|]; simpl; try lia.
  destruct Hpb as [_ Ht].
  destruct (TCPPacket_init_inv _ t Ht) as (_ & -> & -> & _).
  rewrite !field16_slice_from.
  replace (Z.to_nat (byte_at buff 0 mod 16 * 4) + 0)%nat with off
    by (unfold off; lia).
  split; reflexivity.
Qed.

Lemma to_tuple_of_datagram_witness :
  exists p,
    IPPacket.__init__ tcp_datagram = Ok p
    /\ byte_at tcp_datagram 9 = 6
    /\ exists src dst,
         inet_ntoa (slice tcp_datagram 12 16) = Ok src
         /\ inet_ntoa (slice tcp_datagram 16 20) = Ok dst
         /\ to_tuple p false
            = Some (src, field16 tcp_datagram 20, dst, field16 tcp_datagram 22)
         /\ to_tuple p true
            = Some (dst, field16 tcp_datagram 22, src, field16 tcp_datagram 20).
Proof.
  eexists. split; [reflexivity|]. split; [reflexivity|].
  exact (to_tuple_of_datagram tcp_datagram _ eq_refl eq_refl).
Defined.

(** ** Bit fields of the IP header *)

Lemma land_shiftr_high (a k m : Z) :
  0 <= k -> 0 <= m -> 0 <= a < 2 ^ (k + m) ->
  Z.land (Z.shiftr a k) (Z.ones m) = a / 2 ^ k.
Proof.
  intros Hk Hm Ha.
  rewrite Z.land_ones by exact Hm. rewrite Z.shiftr_div_pow2 by exact Hk.
  apply Z.mod_small. split.
  - apply Z.div_pos; [lia|]. apply Z.pow_pos_nonneg; lia.
  - apply Z.div_lt_upper_bound; [apply Z.pow_pos_nonneg; lia|].
    rewrite <- Z.pow_add_r by lia. lia.
Qed.

(** X10. The attributes of the fixed header take the byte 0 and the field of
    bytes 6-7 apart without losing a bit: version and IHL make up byte 0,
    flags and fragment offset make up bytes 6-7, and every attribute lies in
    the range of its width. No attribute is checked: the version need not
    be 4. *)
Theorem IPPacket_header_bit_fields (buff : list byte) :
  20 <= len buff ->
  exists h, IPPacket._parse_header buff = Ok h
    /\ byte_at buff 0 = IPPacket._version h * 16 + IPPacket._ihl h
    /\ 0 <= IPPacket._version h <= 15
    /\ 0 <= IPPacket._ihl h <= 15
    /\ field16 buff 6 = IPPacket._flags h * 8192 + IPPacket._frag_offset h
    /\ 0 <= IPPacket._flags h <= 7
    /\ 0 <= IPPacket._frag_offset h <= 8191
    /\ IPPacket._total_length h = field16 buff 2
    /\ IPPacket._id h = field16 buff 4
    /\ IPPacket._ttl h = byte_at buff 8
    /\ IPPacket._protocol h = byte_at buff 9
    /\ IPPacket._checksum h = field16 buff 10.
Proof.
  intros H.
  destruct (IPPacket_header_fields buff H)
    as (h & Hh & Hver & Hihl & Htl & Hid & Hfl & Hfo & Httl & Hproto & Hck & _).
  pose proof (byte_at_range buff 0) as Hb0.
  pose proof (field16_range buff 6) as Hf6.
  change 0xF with (Z.ones 4) in Hver.
  rewrite (land_shiftr_high _ 4 4) in Hver by lia.
  rewrite land_0xF in Hihl.
  change 0x7 with (Z.ones 3) in Hfl.
  rewrite (land_shiftr_high _ 13 3) in Hfl by lia.
  change 0x1FFF with (Z.ones 13) in Hfo. rewrite Z.land_ones in Hfo by lia.
  change (2 ^ 4) with 16 in Hver. change (2 ^ 13) with 8192 in Hfl, Hfo.
  pose proof (Z.div_mod (byte_at buff 0) 16 ltac:(lia)) as Hdm0.
  pose proof (Z.mod_pos_bound (byte_at buff 0) 16 ltac:(lia)) as Hm0.
  pose proof (Z.div_mod (field16 buff 6) 8192 ltac:(lia)) as Hdm6.
  pose proof (Z.mod_pos_bound (field16 buff 6) 8192 ltac:(lia)) as Hm6.
  assert (0 <= byte_at buff 0 / 16 <= 15).
  { split; [apply Z.div_pos; lia|]. apply Z.lt_succ_r.
    apply Z.div_lt_upper_bound; lia. }
  assert (0 <= field16 buff 6 / 8192 <= 7).
  { split; [apply Z.div_pos; lia|]. apply Z.lt_succ_r.
    apply Z.div_lt_upper_bound; lia. }
  exists h. rewrite Hver, Hihl, Hfl, Hfo.
  repeat (split; [first [assumption | lia]|]). assumption.
Qed.

Lemma IPPacket_header_bit_fields_witness :
  20 <= len tcp_datagram
  /\ exists h, IPPacket._parse_header tcp_datagram = Ok h
       /\ byte_at tcp_datagram 0 = IPPacket._version h * 16 + IPPacket._ihl h
       /\ 0 <= IPPacket._version h <= 15.
Proof.
  split; [unfold len; simpl; lia|].
  destruct (IPPacket_header_bit_fields tcp_datagram ltac:(unfold len; simpl; lia))
    as (h & Hh & Hb0 & Hver & _).
  exists h. split; [exact Hh|]. split; [exact Hb0|exact Hver].
Defined.

(** X11. The data length of the IP header is the declared total length minus
    IHL * 4. It is read off the first four bytes alone, whatever the size
    of the buffer, and lies between -60 and 65535. *)
Theorem IPPacket_get_data_len_range (buff : list byte) :
  20 <= len buff ->
  exists h, IPPacket._parse_header buff = Ok h
    /\ IPPacket.get_data_len h = field16 buff 2 - byte_at buff 0 mod 16 * 4
    /\ -60 <= IPPacket.get_data_len h <= 65535.
Proof.
  intros H.
  destruct (IPPacket_header_fields buff H) as (h & Hh & _ & Hihl & Htl & _).
  rewrite land_0xF in Hihl.
  pose proof (field16_range buff 2) as Hf.
  pose proof (Z.mod_pos_bound (byte_at buff 0) 16 ltac:(lia)) as Hm.
  exists h. split; [exact Hh|].
  unfold IPPacket.get_data_len. rewrite Hihl, Htl. split; lia.
Qed.

Lemma IPPacket_get_data_len_range_witness :
  20 <= len ihl0_datagram
  /\ exists h, IPPacket._parse_header ihl0_datagram = Ok h
       /\ IPPacket.get_data_len h = 40.
Proof.
  split; [unfold len; simpl; lia|].
  destruct (IPPacket_get_data_len_range ihl0_datagram ltac:(unfold len; simpl; lia))
    as (h & Hh & Hdl & _).
  exists h. split; [exact Hh|]. rewrite Hdl. reflexivity.
Defined.

(** ** Options and payload slice of the IP decoder *)

(** X12. The options are the bytes from offset 20 up to offset IHL * 4, as far
    as the buffer has them: at most 40 bytes, and none when IHL is 5 or
    less. *)
Theorem IPPacket_options_length (buff : list byte) :
  20 <= len buff ->
  exists h, IPPacket._parse_header buff = Ok h
    /\ len (IPPacket._options h)
       = Z.max 0 (Z.min (len buff) (IPPacket.get_header_len h) - 20)
    /\ len (IPPacket._options h) <= 40
    /\ (IPPacket._options h = [] <-> IPPacket._ihl h <= 5 \/ len buff = 20).
Proof.
  intros H.
  destruct (IPPacket_header_fields buff H)
    as (h & Hh & _ & Hihl & _ & _ & _ & _ & _ & _ & _ & _ & _ & Hopt).
  pose proof (Z.mod_pos_bound (byte_at buff 0) 16 ltac:(lia)) as Hm.
  rewrite land_0xF in Hihl.
  assert (Hlen : len (IPPacket._options h)
                 = Z.max 0 (Z.min (len buff) (IPPacket.get_header_len h) - 20)).
  { rewrite Hopt. unfold IPPacket.get_header_len. apply len_slice. lia. }
  exists h. split; [exact Hh|]. split; [exact Hlen|].
  unfold IPPacket.get_header_len in Hlen.
  split; [lia|]. split.
  - intros Hnil. rewrite Hnil in Hlen. unfold len at 1 in Hlen. simpl in Hlen. lia.
  - intros Hc. apply length_zero_iff_nil.
    unfold len in Hlen at 1. lia.
Qed.

Lemma IPPacket_options_length_witness :
  20 <= len tcp_datagram
  /\ exists h, IPPacket._parse_header tcp_datagram = Ok h
       /\ len (IPPacket._options h) <= 40.
Proof.
  split; [unfold len; simpl; lia|].
  destruct (IPPacket_options_length tcp_datagram ltac:(unfold len; simpl; lia))
    as (h & Hh & _ & Hle & _).
  exists h. split; [exact Hh|exact Hle].
Defined.

(** X13. When IHL is at least 5, the 20 bytes of fixed header, the options and
    the slice handed to the dispatcher make up the buffer: no byte is
    dropped and none is read twice. *)
Theorem IPPacket_buffer_partition (buff : list byte) :
  20 <= len buff ->
  5 <= byte_at buff 0 mod 16 ->
  exists h, IPPacket._parse_header buff = Ok h
    /\ slice buff 0 20 ++ IPPacket._options h
       ++ slice_from buff (IPPacket.get_header_len h) = buff.
Proof.
  intros H H5.
  destruct (IPPacket_header_fields buff H)
    as (h & Hh & _ & Hihl & _ & _ & _ & _ & _ & _ & _ & _ & _ & Hopt).
  rewrite land_0xF in Hihl.
  exists h. split; [exact Hh|].
  rewrite Hopt. unfold IPPacket.get_header_len.
  apply slice_partition. lia.
Qed.

Lemma IPPacket_buffer_partition_witness :
  20 <= len tcp_datagram
  /\ 5 <= byte_at tcp_datagram 0 mod 16
  /\ exists h, IPPacket._parse_header tcp_datagram = Ok h
       /\ slice tcp_datagram 0 20 ++ IPPacket._options h
          ++ slice_from tcp_datagram (IPPacket.get_header_len h) = tcp_datagram.
Proof.
  assert (Hlen : 20 <= len tcp_datagram) by (unfold len; simpl; lia).
  assert (Hihl : 5 <= byte_at tcp_datagram 0 mod 16) by (vm_compute; discriminate).
  split; [exact Hlen|]. split; [exact Hihl|].
  exact (IPPacket_buffer_partition tcp_datagram Hlen Hihl).
Defined.

(** ** The fields of the transport headers *)

Lemma be_uint_4 (a b c d : byte) :
  be_uint [a; b; c; d]
  = (byte_val a * 256 + byte_val b) * 65536 + (byte_val c * 256 + byte_val d).
Proof. unfold be_uint. simpl fold_left. lia. Qed.

Ltac long_enough_32 buff :=
  do 20 (next_byte buff too_short);
  eexists; split; [ reflexivity | ];
  unfold field16, byte_at; cbn [nth]; rewrite <- ?be_uint_4, <- ?be_uint_2.

(** Where the attributes of a TCP packet that [TCPPacket_long] leaves out
    come from. *)
Lemma TCPPacket_fields (buff : list byte) :
  20 <= len buff ->
  exists t, TCPPacket.__init__ buff = Ok t
    /\ TCPPacket._seq_num t = field16 buff 4 * 65536 + field16 buff 6
    /\ TCPPacket._ack_num t = field16 buff 8 * 65536 + field16 buff 10
    /\ TCPPacket._win_size t = field16 buff 14
    /\ TCPPacket._checksum t = field16 buff 16
    /\ TCPPacket._urg_ptr t = field16 buff 18
    /\ TCPPacket._options t = slice buff 20 (TCPPacket._data_offset t * 4).
Proof.
  intros H. long_enough_32 buff. repeat split; reflexivity.
Qed.

Lemma UDPPacket_fields (buff : list byte) :
  8 <= len buff ->
  exists u, UDPPacket.__init__ buff = Ok u
    /\ UDPPacket._src_port u = field16 buff 0
    /\ UDPPacket._dst_port u = field16 buff 2
    /\ UDPPacket._length u = field16 buff 4
    /\ UDPPacket._checksum u = field16 buff 6
    /\ UDPPacket._total_length u = len buff.
Proof.
  intros H. do 8 (next_byte buff too_short).
  eexists; split; [ reflexivity | ].
  unfold field16, byte_at; cbn [nth]; rewrite <- ?be_uint_2.
  repeat split; reflexivity.
Qed.



Lemma land_pow2_cases (a k : Z) :
  0 <= k -> Z.land a (2 ^ k) = 0 \/ Z.land a (2 ^ k) = 2 ^ k.
Proof.
  intros Hk. destruct (Z.testbit a k) eqn:Hbit; [right|left];
    apply Z.bits_inj'; intros n Hn;
    rewrite Z.land_spec, Z.pow2_bits_eqb by exact Hk;
    destruct (Z.eqb_spec k n) as [<- | Hne].
  - rewrite Hbit. reflexivity.
  - apply andb_false_r.
  - rewrite Hbit, Z.bits_0. reflexivity.
  - rewrite Z.bits_0. apply andb_false_r.
Qed.

(** X15. A flag attribute of a decoded TCP packet is not a boolean: it is 0 when
    the flag is clear and the mask of the flag when it is set. *)
Theorem TCPPacket_flag_values (buff : list byte) :
  20 <= len buff ->
  exists t, TCPPacket.__init__ buff = Ok t
    /\ (TCPPacket.flag_ns t = 0 \/ TCPPacket.flag_ns t = 0x0100)
    /\ (TCPPacket.flag_cwr t = 0 \/ TCPPacket.flag_cwr t = 0x0080)
    /\ (TCPPacket.flag_ece t = 0 \/ TCPPacket.flag_ece t = 0x0040)
    /\ (TCPPacket.flag_urg t = 0 \/ TCPPacket.flag_urg t = 0x0020)
    /\ (TCPPacket.flag_ack t = 0 \/ TCPPacket.flag_ack t = 0x0010)
    /\ (TCPPacket.flag_psh t = 0 \/ TCPPacket.flag_psh t = 0x0008)
    /\ (TCPPacket.flag_rst t = 0 \/ TCPPacket.flag_rst t = 0x0004)
    /\ (TCPPacket.flag_syn t = 0 \/ TCPPacket.flag_syn t = 0x0002)
    /\ (TCPPacket.flag_fin t = 0 \/ TCPPacket.flag_fin t = 0x0001).
Proof.
  intros H.
  destruct (TCPPacket_long buff H)
    as (t & Ht & _ & _ & _ & _ & Hns & Hcwr & Hece & Hurg & Hack & Hpsh
        & Hrst & Hsyn & Hfin).
  exists t. split; [exact Ht|].
  rewrite Hns, Hcwr, Hece, Hurg, Hack, Hpsh, Hrst, Hsyn, Hfin.
  split; [exact (land_pow2_cases _ 8 ltac:(lia))|].
  split; [exact (land_pow2_cases _ 7 ltac:(lia))|].
  split; [exact (land_pow2_cases _ 6 ltac:(lia))|].
  split; [exact (land_pow2_cases _ 5 ltac:(lia))|].
  split; [exact (land_pow2_cases _ 4 ltac:(lia))|].
  split; [exact (land_pow2_cases _ 3 ltac:(lia))|].
  split; [exact (land_pow2_cases _ 2 ltac:(lia))|].
  split; [exact (land_pow2_cases _ 1 ltac:(lia))|].
  exact (land_pow2_cases _ 0 ltac:(lia)).
Qed.

Lemma TCPPacket_flag_values_witness :
  20 <= len tcp_segment
  /\ exists t, TCPPacket.__init__ tcp_segment = Ok t
       /\ (TCPPacket.flag_ack t = 0 \/ TCPPacket.flag_ack t = 0x0010).
Proof.
  split; [unfold len; simpl; lia|].
  destruct (TCPPacket_flag_values tcp_segment ltac:(unfold len; simpl; lia))
    as (t & Ht & _ & _ & _ & _ & Hack & _).
  exists t. split; [exact Ht|exact Hack].
Defined.

(** X16. The header length of a decoded TCP packet is the top nibble of the
    flags/offset field times 16384: it is 0 or at least 16384, and at most
    245760. The data length is the size of the slice minus that, so on a
    slice of fewer than 16384 bytes it is negative unless the nibble is 0. *)
Theorem TCPPacket_header_len_range (buff : list byte) :
  20 <= len buff ->
  exists t, TCPPacket.__init__ buff = Ok t
    /\ TCPPacket.get_header_len t = field16 buff 12 / 4096 * 16384
    /\ 0 <= TCPPacket.get_header_len t <= 245760
    /\ (TCPPacket.get_header_len t = 0 \/ 16384 <= TCPPacket.get_header_len t)
    /\ TCPPacket.get_data_len t = len buff - TCPPacket.get_header_len t
    /\ (len buff < 16384 ->
        (0 <= TCPPacket.get_data_len t <-> field16 buff 12 < 4096)).
Proof.
  intros H.
  destruct (TCPPacket_lengths buff H) as (t & Ht & _ & Hhl & Hdl).
  rewrite Z.shiftr_div_pow2 in Hhl, Hdl by lia. change (2 ^ 12) with 4096 in *.
  pose proof (field16_range buff 12) as Hf.
  assert (Hd : 0 <= field16 buff 12 / 4096 <= 15).
  { split; [apply Z.div_pos; lia|]. apply Z.lt_succ_r.
    apply Z.div_lt_upper_bound; lia. }
  assert (Hz : field16 buff 12 / 4096 = 0 <-> field16 buff 12 < 4096).
  { split; [intros Hq|intros Hlt; apply Z.div_small; lia].
    pose proof (Z.div_mod (field16 buff 12) 4096 ltac:(lia)) as Hdm.
    pose proof (Z.mod_pos_bound (field16 buff 12) 4096 ltac:(lia)). lia. }
  exists t. split; [exact Ht|]. rewrite Hhl, Hdl.
  split; [reflexivity|]. split; [lia|]. split; [lia|]. split; [reflexivity|].
  intros Hlt. split; intros Hx; lia.
Qed.

Lemma TCPPacket_header_len_range_witness :
  20 <= len tcp_segment
  /\ exists t, TCPPacket.__init__ tcp_segment = Ok t
       /\ TCPPacket.get_header_len t = field16 tcp_segment 12 / 4096 * 16384
       /\ 16384 <= TCPPacket.get_header_len t.
Proof.
  split; [unfold len; simpl; lia|].
  destruct (TCPPacket_header_len_range tcp_segment ltac:(unfold len; simpl; lia))
    as (t & Ht & Hhl & _ & _ & _).
  exists t. split; [exact Ht|]. split; [exact Hhl|].
  rewrite Hhl. vm_compute. discriminate.
Defined.

(** X17. The options of a TCP packet are sliced with the unshifted data offset:
    they are empty when the top nibble of the flags/offset field is 0, and
    for a nibble of 1 or more they are every byte of a slice of up to 16384
    bytes after its 20th, data included. *)
Theorem TCPPacket_options (buff : list byte) :
  20 <= len buff ->
  exists t, TCPPacket.__init__ buff = Ok t
    /\ len (TCPPacket._options t)
       = Z.max 0 (Z.min (len buff) (TCPPacket.get_header_len t) - 20)
    /\ (Z.shiftr (field16 buff 12) 12 = 0 -> TCPPacket._options t = [])
    /\ (1 <= Z.shiftr (field16 buff 12) 12 -> len buff <= 16384 ->
        TCPPacket._options t = slice_from buff 20).
Proof.
  intros H.
  destruct (TCPPacket_fields buff H) as (t & Ht & _ & _ & _ & _ & _ & Hopt).
  destruct (TCPPacket_long buff H) as (t' & Ht' & _ & _ & Hoff & _).
  rewrite Ht in Ht'. injection Ht' as <-.
  rewrite land_F000 in Hoff by apply field16_range.
  pose proof (Z.shiftr_nonneg (field16 buff 12) 12) as Hd.
  pose proof (field16_range buff 12) as Hf.
  exists t. split; [exact Ht|].
  unfold TCPPacket.get_header_len. rewrite Hopt, Hoff.
  split; [apply len_slice; lia|]. split.
  - intros ->. reflexivity.
  - intros H1 Hle. unfold slice, slice_from. apply take_ge.
    rewrite length_drop. unfold len in *. lia.
Qed.

Lemma TCPPacket_options_witness :
  20 <= len tcp_segment
  /\ exists t, TCPPacket.__init__ tcp_segment = Ok t
       /\ TCPPacket._options t = slice_from tcp_segment 20.
Proof.
  split; [unfold len; simpl; lia|].
  destruct (TCPPacket_options tcp_segment ltac:(unfold len; simpl; lia))
    as (t & Ht & _ & _ & Hall).
  exists t. split; [exact Ht|].
  apply Hall; [vm_compute; discriminate | unfold len; simpl; lia].
Defined.

(** X18. A decoded UDP packet has a header length of 8 and a data length of the
    size of the slice minus 8, which is never negative; the length the
    header declares is stored and plays no part in it. *)
Theorem UDPPacket_lengths (buff : list byte) :
  8 <= len buff ->
  exists u, UDPPacket.__init__ buff = Ok u
    /\ UDPPacket.get_src_port u = field16 buff 0
    /\ UDPPacket.get_dst_port u = field16 buff 2
    /\ UDPPacket._length u = field16 buff 4
    /\ UDPPacket._checksum u = field16 buff 6
    /\ UDPPacket.get_header_len u = 8
    /\ UDPPacket.get_data_len u = len buff - 8
    /\ 0 <= UDPPacket.get_data_len u.
Proof.
  intros H.
  destruct (UDPPacket_fields buff H) as (u & Hu & Hsp & Hdp & Hlen & Hck & Htl).
  exists u. unfold UDPPacket.get_src_port, UDPPacket.get_dst_port,
    UDPPacket.get_data_len, UDPPacket.get_header_len.
  rewrite Htl. repeat (split; [first [assumption | reflexivity | lia]|]). lia.
Qed.

Lemma UDPPacket_lengths_witness :
  8 <= len tcp_segment
  /\ exists u, UDPPacket.__init__ tcp_segment = Ok u
       /\ UDPPacket.get_data_len u = len tcp_segment - 8.
Proof.
  split; [unfold len; simpl; lia|].
  destruct (UDPPacket_lengths tcp_segment ltac:(unfold len; simpl; lia))
    as (u & Hu & _ & _ & _ & _ & _ & Hdl & _).
  exists u. split; [exact Hu|exact Hdl].
Defined.

(** ** ICMP packets *)

Lemma ICMPPacket_fields (buf : list byte) :
  4 <= len buf ->
  exists i, ICMPPacket.__init__ buf = Ok i
    /\ ICMPPacket.type i = byte_at buf 0
    /\ ICMPPacket.code i = byte_at buf 1
    /\ ICMPPacket.checksum i = field16 buf 2
    /\ ICMPPacket.rest i = slice buf 4 8.
Proof.
  intros H. do 4 (next_byte buf too_short).
  eexists; split; [ reflexivity | ].
  unfold field16, byte_at; cbn [nth]; rewrite <- ?be_uint_2.
  repeat split; reflexivity.
Qed.

(** X19. [rest] holds the bytes 4 to 7 of the slice that are there: 4 bytes when
    the slice has 8 or more, fewer (down to none) when it is shorter, while
    the data length the packet reports is 4 in every case. *)
Theorem ICMPPacket_rest_length (buf : list byte) :
  4 <= len buf ->
  exists i, ICMPPacket.__init__ buf = Ok i
    /\ ICMPPacket.type i = byte_at buf 0
    /\ ICMPPacket.code i = byte_at buf 1
    /\ ICMPPacket.checksum i = field16 buf 2
    /\ len (ICMPPacket.rest i) = Z.min 4 (len buf - 4)
    /\ (ICMPPacket.rest i = [] <-> len buf = 4)
    /\ ICMPPacket.get_data_len i = 4.
Proof.
  intros H.
  destruct (ICMPPacket_fields buf H) as (i & Hi & Hty & Hco & Hck & Hrest).
  assert (Hlen : len (ICMPPacket.rest i) = Z.min 4 (len buf - 4)).
  { rewrite Hrest, len_slice by lia. lia. }
  exists i. split; [exact Hi|]. split; [exact Hty|]. split; [exact Hco|].
  split; [exact Hck|]. split; [exact Hlen|]. split; [|reflexivity].
  split.
  - intros Hnil. rewrite Hnil in Hlen. unfold len at 1 in Hlen. simpl in Hlen. lia.
  - intros H4. apply length_zero_iff_nil. unfold len in Hlen at 1. lia.
Qed.

Lemma ICMPPacket_rest_length_witness :
  4 <= len icmp_4_bytes
  /\ exists i, ICMPPacket.__init__ icmp_4_bytes = Ok i
       /\ ICMPPacket.rest i = []
       /\ ICMPPacket.get_data_len i = 4.
Proof.
  split; [unfold len; simpl; lia|].
  destruct (ICMPPacket_rest_length icmp_4_bytes ltac:(unfold len; simpl; lia))
    as (i & Hi & _ & _ & _ & _ & Hnil & Hdl).
  exists i. split; [exact Hi|]. split; [|exact Hdl].
  apply Hnil. reflexivity.
Defined.

(** The types the type table names. *)
Lemma ICMP_TYPES_known (n : Z) :
  is_Some (ICMP_TYPES !! KInt n) <-> 0 <= n <= 5 \/ 8 <= n <= 18 \/ n = 30.
Proof.
  split.
  - intros [v Hv]. unfold ICMP_TYPES in Hv.
    apply elem_of_list_to_map_2 in Hv. unfold ICMP_TYPES_items in Hv.
    repeat (apply elem_of_cons in Hv as [Hv | Hv];
            [injection Hv as Hn _; lia|]).
    apply elem_of_nil in Hv. contradiction.
  - intros Hn.
    assert (Hc : n = 0 \/ n = 1 \/ n = 2 \/ n = 3 \/ n = 4 \/ n = 5 \/ n = 8
                 \/ n = 9 \/ n = 10 \/ n = 11 \/ n = 12 \/ n = 13 \/ n = 14
                 \/ n = 15 \/ n = 16 \/ n = 17 \/ n = 18 \/ n = 30) by lia.
    repeat (destruct Hc as [-> | Hc]; [vm_compute; eexists; reflexivity|]).
    subst n. vm_compute. eexists. reflexivity.
Qed.

(** X20. The summary of an ICMP packet names its type "Unknown" exactly when the
    type is none of 0-5, 8-18 and 30. *)
Theorem ICMPPacket_type_name_known (p : ICMPPacket.t) :
  ICMPPacket.type_name p <> "Unknown"%string
  <-> 0 <= ICMPPacket.type p <= 5
      \/ 8 <= ICMPPacket.type p <= 18
      \/ ICMPPacket.type p = 30.
Proof.
  rewrite <- ICMP_TYPES_known, ICMPPacket_type_name_unknown.
  destruct (ICMP_TYPES !! KInt (ICMPPacket.type p)) as [v|]; split.
  - intros _. exists v. reflexivity.
  - intros _. discriminate.
  - intros Hne. contradiction Hne. reflexivity.
  - intros [v Hv]. discriminate Hv.
Qed.

(** X21. The summary of an ICMP packet ends with the code name "Unknown" for
    every packet, whatever its type and code: the code table, keyed by
    pairs, is read at the integer [code]. *)
Theorem ICMPPacket_unicode_code_unknown (p : ICMPPacket.t) :
  ICMPPacket.__unicode__ p
  = ("ICMP Type " +:+ fmt_d (ICMPPacket.type p)
     +:+ " (" +:+ dict_get ICMP_TYPES (KInt (ICMPPacket.type p)) "Unknown"
     +:+ ") Code " +:+ fmt_d (ICMPPacket.code p) +:+ " (Unknown)")%string.
Proof.
  unfold ICMPPacket.__unicode__. rewrite ICMPPacket_code_name_unknown.
  reflexivity.
Qed.

(** ** A header length below 20 *)

(** X22. A datagram whose IHL nibble is 0 is decoded with a payload that starts
    at offset 0: for protocol 17 the UDP packet is read off the IP header
    itself, its source port being bytes 0-1, its destination port the total
    length and its length the identification of the IP header. *)
Theorem IPPacket_ihl_0_udp (buff : list byte) :
  20 <= len buff ->
  byte_at buff 0 mod 16 = 0 ->
  byte_at buff 9 = 17 ->
  exists p u, IPPacket.__init__ buff = Ok p
    /\ IPPacket.get_header_len p = 0
    /\ IPPacket.get_payload p = Some (UDP u)
    /\ UDPPacket._src_port u = field16 buff 0
    /\ UDPPacket._dst_port u = IPPacket._total_length p
    /\ UDPPacket._length u = IPPacket._id p
    /\ UDPPacket.get_data_len u = len buff - 8.
Proof.
  intros H H0 H17.
  destruct (IPPacket_header_fields buff H)
    as (h & Hh & _ & Hihl & Htl & Hid & _ & _ & _ & Hproto & _).
  rewrite land_0xF, H0 in Hihl.
  destruct (UDPPacket_fields buff ltac:(lia))
    as (u & Hu & Hsp & Hdp & Hlen & _ & Hutl).
  exists (IPPacket.mk h (Some (UDP u))), u.
  split.
  - rewrite (IPPacket_init_unfold buff h Hh).
    unfold IPPacket.get_header_len. rewrite Hihl, Hproto, H17.
    rewrite payload_builder_udp.
    change (slice_from buff (0 * 4)) with buff. rewrite Hu. reflexivity.
  - simpl. unfold IPPacket.get_header_len, UDPPacket.get_data_len,
      UDPPacket.get_header_len.
    rewrite Hihl, Hsp, Hdp, Hlen, Htl, Hid, Hutl. repeat split; lia.
Qed.

Lemma IPPacket_ihl_0_udp_witness :
  20 <= len (ip_header x40 x00 x11)
  /\ byte_at (ip_header x40 x00 x11) 0 mod 16 = 0
  /\ byte_at (ip_header x40 x00 x11) 9 = 17
  /\ exists p u, IPPacket.__init__ (ip_header x40 x00 x11) = Ok p
       /\ IPPacket.get_payload p = Some (UDP u)
       /\ UDPPacket._src_port u = field16 (ip_header x40 x00 x11) 0
       /\ UDPPacket._dst_port u = IPPacket._total_length p.
Proof.
  assert (Hlen : 20 <= len (ip_header x40 x00 x11)) by (unfold len; simpl; lia).
  assert (H0 : byte_at (ip_header x40 x00 x11) 0 mod 16 = 0) by reflexivity.
  assert (H17 : byte_at (ip_header x40 x00 x11) 9 = 17) by reflexivity.
  split; [exact Hlen|]. split; [exact H0|]. split; [exact H17|].
  destruct (IPPacket_ihl_0_udp (ip_header x40 x00 x11) Hlen H0 H17)
    as (p & u & Hp & _ & Hpay & Hsp & Hdp & _).
  exists p, u. split; [exact Hp|]. split; [exact Hpay|]. split; [exact Hsp|exact Hdp].
Defined.

(** ** Summaries *)

Lemma fmt_d_inj (a b : Z) : fmt_d a = fmt_d b -> a = b.
Proof.
  unfold fmt_d. intros Heq.
  assert (Hnn : forall z, Z.to_int z <> Decimal.Pos Decimal.Nil
                          /\ Z.to_int z <> Decimal.Neg Decimal.Nil).
  { intros [|p|p]; simpl; split; try discriminate;
      intros [= Hp]; exact (DecimalPos.Unsigned.to_uint_nonnil p Hp). }
  pose proof (NilZero.isi (Z.to_int a) (proj1 (Hnn a)) (proj2 (Hnn a))) as Ha.
  pose proof (NilZero.isi (Z.to_int b) (proj1 (Hnn b)) (proj2 (Hnn b))) as Hb.
  rewrite Heq, Hb in Ha. injection Ha as Hab.
  rewrite <- (DecimalZ.of_to a), <- (DecimalZ.of_to b), Hab. reflexivity.
Qed.

Lemma no_space_uint (d : Decimal.uint) : no_space (NilEmpty.string_of_uint d).
Proof.
  induction d; simpl; try exact I; (split; [discriminate|assumption]).
Qed.

Lemma no_space_fmt_d (n : Z) : no_space (fmt_d n).
Proof.
  unfold fmt_d. destruct (Z.to_int n) as [d|d]; simpl.
  - destruct d; try exact (no_space_uint _). simpl. split; [discriminate|exact I].
  - split; [discriminate|].
    destruct d; try exact (no_space_uint _). simpl. split; [discriminate|exact I].
Qed.

(** Two strings without a space that are followed by " to " are read back
    from the whole. *)
Lemma append_to_inj (a c b d : string) :
  no_space a -> no_space c ->
  (a +:+ " to " +:+ b = c +:+ " to " +:+ d)%string -> a = c /\ b = d.
Proof.
  revert c. induction a as [|x a IH]; intros [|y c] Ha Hc Heq; simpl in *.
  - injection Heq as Heq. change (b = d) in Heq. split; [reflexivity|exact Heq].
  - injection Heq as Hy _. destruct Hc as [Hc _]. congruence.
  - injection Heq as Hx _. destruct Ha as [Ha _]. congruence.
  - injection Heq as -> Heq. destruct Ha as [_ Ha]. destruct Hc as [_ Hc].
    destruct (IH c Ha Hc Heq) as [-> ->]. split; reflexivity.
Qed.

(** X23. The summary of a TCP packet tells its two ports: packets with the same
    summary have the same source port and the same destination port. *)
Theorem TCPPacket_unicode_inj (t1 t2 : TCPPacket.t) :
  TCPPacket.__unicode__ t1 = TCPPacket.__unicode__ t2 ->
  TCPPacket.get_src_port t1 = TCPPacket.get_src_port t2
  /\ TCPPacket.get_dst_port t1 = TCPPacket.get_dst_port t2.
Proof.
  unfold TCPPacket.__unicode__, TCPPacket.get_src_port, TCPPacket.get_dst_port.
  intros Heq. simpl in Heq. injection Heq as Heq.
  apply append_to_inj in Heq; try apply no_space_fmt_d.
  destruct Heq as [Hs Hd]. split; apply fmt_d_inj; assumption.
Qed.

Lemma TCPPacket_unicode_inj_witness :
  exists t1 t2,
    TCPPacket.__init__ tcp_segment = Ok t1
    /\ TCPPacket.__init__ (tcp_segment ++ [x00]) = Ok t2
    /\ TCPPacket.__unicode__ t1 = TCPPacket.__unicode__ t2
    /\ TCPPacket.get_src_port t1 = TCPPacket.get_src_port t2
    /\ TCPPacket.get_dst_port t1 = TCPPacket.get_dst_port t2.
Proof.
  eexists. eexists. split; [reflexivity|]. split; [reflexivity|].
  split; [reflexivity|].
  exact (TCPPacket_unicode_inj _ _ eq_refl).
Defined.

(** X24. The summary of a UDP packet tells its two ports. *)
Theorem UDPPacket_unicode_inj (u1 u2 : UDPPacket.t) :
  UDPPacket.__unicode__ u1 = UDPPacket.__unicode__ u2 ->
  UDPPacket.get_src_port u1 = UDPPacket.get_src_port u2
  /\ UDPPacket.get_dst_port u1 = UDPPacket.get_dst_port u2.
Proof.
  unfold UDPPacket.__unicode__, UDPPacket.get_src_port, UDPPacket.get_dst_port.
  intros Heq. simpl in Heq. injection Heq as Heq.
  apply append_to_inj in Heq; try apply no_space_fmt_d.
  destruct Heq as [Hs Hd]. split; apply fmt_d_inj; assumption.
Qed.

Lemma UDPPacket_unicode_inj_witness :
  exists u1 u2,
    UDPPacket.__init__ tcp_segment = Ok u1
    /\ UDPPacket.__init__ (tcp_segment ++ [x00]) = Ok u2
    /\ UDPPacket.__unicode__ u1 = UDPPacket.__unicode__ u2
    /\ UDPPacket.get_src_port u1 = UDPPacket.get_src_port u2
    /\ UDPPacket.get_dst_port u1 = UDPPacket.get_dst_port u2.
Proof.
  eexists. eexists. split; [reflexivity|]. split; [reflexivity|].
  split; [reflexivity|].
  exact (UDPPacket_unicode_inj _ _ eq_refl).
Defined.
